(** * Trusted Properties marketplace: the client of the rent-agreement program

    A shallow embedding of [src/client/trustedproperties.ts]: the account
    class and its Borsh schema, the derivation of the agreement address, the
    find-or-create step of [checkProgram] and the instruction built by
    [initContract], together with the parts of the libraries the client calls
    (bn.js, bs58, borsh-js, the [PublicKey] class of web3.js, SHA-256).

    Conventions.  A byte is a [Z] in [0, 256).  A JavaScript string is modelled
    by the sequence of its UTF-8 code units, a [string].  A JavaScript number
    is modelled by an integer; the client only handles integers.  An
    exception is a value of [JSError] carried by [result].  The module-level
    variables of the client form a [Session]; the console output is left
    out.  [main] of [main.ts] runs the four steps of the client in order. *)

From Stdlib Require Import ZArith List String Ascii Bool Lia.
Import ListNotations.
Local Open Scope Z_scope.

(** ** Exceptions *)

Inductive JSError : Type :=
| TypeError (msg : string)
| RangeError (msg : string)
| BorshError (msg : string)
| Error (msg : string).

Inductive result (A : Type) : Type :=
| Ok (a : A)
| Throw (e : JSError).
Arguments Ok {A} a.
Arguments Throw {A} e.

Definition rbind {A B} (r : result A) (k : A -> result B) : result B :=
  match r with
  | Ok a => k a
  | Throw e => Throw e
  end.

Definition rmap {A B} (f : A -> B) (r : result A) : result B :=
  rbind r (fun a => Ok (f a)).

(** ** Byte sequences *)

Module Bytes.

(** The [n] low base-256 digits of [z], least significant first. *)
Fixpoint le_bytes (n : nat) (z : Z) : list Z :=
  match n with
  | O => []
  | S k => z mod 256 :: le_bytes k (z / 256)
  end.

Definition be_bytes (n : nat) (z : Z) : list Z := rev (le_bytes n z).

Fixpoint le_value (bs : list Z) : Z :=
  match bs with
  | [] => 0
  | b :: rest => b + 256 * le_value rest
  end.

Definition be_value (bs : list Z) : Z := le_value (rev bs).

(** [Buffer.from(s)] on a string: its UTF-8 bytes. *)
Definition of_string (s : string) : list Z :=
  map (fun c => Z.of_nat (nat_of_ascii c)) (list_ascii_of_string s).

Definition to_string (bs : list Z) : string :=
  string_of_list_ascii (map (fun b => ascii_of_nat (Z.to_nat b)) bs).

(** [Uint8Array.of(...items)]: every item is reduced modulo 256. *)
Definition Uint8Array_of (items : list Z) : list Z :=
  map (fun x => x mod 256) items.

Fixpoint leading_zeros (bs : list Z) : nat :=
  match bs with
  | 0 :: rest => S (leading_zeros rest)
  | _ => O
  end.

End Bytes.

(** ** bn.js *)

Module BN.

Inductive Endian : Type := le | be.

(** [new BN(number)] asserts that the number is below 2^53. *)
Definition of_number (n : Z) : result Z :=
  if Z.abs n <? 2 ^ 53 then Ok n else Throw (Error "Assertion failed").

(** Number of bytes of the magnitude; 0 for zero. *)
Definition byteLength (n : Z) : Z :=
  if Z.abs n =? 0 then 0 else (Z.log2 (Z.abs n) + 8) / 8.

(** [n.toArray(endian, length)]: the magnitude of [n] as bytes, padded with
    zeroes to [length] BYTES.  A [length] of 0 (or none) means the minimal
    length, at least 1.  The call asserts that the magnitude fits. *)
Definition toArray (n : Z) (endian : Endian) (length : Z) : result (list Z) :=
  let reqLength := if length =? 0 then Z.max 1 (byteLength n) else length in
  if reqLength <? byteLength n
  then Throw (Error "byte array longer than desired length")
  else if reqLength <=? 0
  then Throw (Error "Requested array length <= 0")
  else
    let digits := Bytes.le_bytes (Z.to_nat reqLength) (Z.abs n) in
    Ok (match endian with le => digits | be => rev digits end).

End BN.

(** ** bs58 *)

Module Base58.

Definition ALPHABET : string :=
  "123456789ABCDEFGHJKLMNPQRSTUVWXYZabcdefghijkmnopqrstuvwxyz".

Definition LEADER : ascii := "1"%char.

Definition digit_char (d : Z) : ascii :=
  match String.get (Z.to_nat d) ALPHABET with
  | Some c => c
  | None => LEADER
  end.

Fixpoint index_from (i : Z) (c : ascii) (alphabet : string) : option Z :=
  match alphabet with
  | EmptyString => None
  | String a rest => if Ascii.eqb a c then Some i else index_from (i + 1) c rest
  end.

Definition char_digit (c : ascii) : option Z := index_from 0 c ALPHABET.

(** Base-58 digits of [n], least significant first, none for zero. *)
Fixpoint digits_le (fuel : nat) (n : Z) : list Z :=
  match fuel with
  | O => []
  | S f => if n <=? 0 then [] else n mod 58 :: digits_le f (n / 58)
  end.

Fixpoint value_le (ds : list Z) : Z :=
  match ds with
  | [] => 0
  | d :: rest => d + 58 * value_le rest
  end.

(** One leader character per leading zero byte, then the digits of the
    remaining big-endian number, most significant first.  Two base-58
    digits hold more than one byte, which bounds the number of digits. *)
Definition encode_chars (bs : list Z) : list ascii :=
  repeat LEADER (Bytes.leading_zeros bs)
  ++ map digit_char (rev (digits_le (2 * List.length bs) (Bytes.be_value bs))).

Definition encode (bs : list Z) : string :=
  string_of_list_ascii (encode_chars bs).

Fixpoint leading_leaders (cs : list ascii) : nat :=
  match cs with
  | c :: rest => if Ascii.eqb c LEADER then S (leading_leaders rest) else O
  | [] => O
  end.

Fixpoint digits_of_chars (cs : list ascii) : option (list Z) :=
  match cs with
  | [] => Some []
  | c :: rest =>
      match char_digit c, digits_of_chars rest with
      | Some d, Some ds => Some (d :: ds)
      | _, _ => None
      end
  end.

Definition decode (s : string) : result (list Z) :=
  let cs := list_ascii_of_string s in
  match digits_of_chars cs with
  | None => Throw (Error "Non-base58 character")
  | Some ds =>
      let v := value_le (rev ds) in
      Ok (repeat 0 (leading_leaders cs)
          ++ Bytes.be_bytes (Z.to_nat (BN.byteLength v)) v)
  end.

End Base58.

(** ** SHA-256 (FIPS 180-4), the hash behind [PublicKey.createWithSeed] *)

Module Sha256.

Definition mask32 : Z := 0xffffffff.
Definition w32 (x : Z) : Z := Z.land x mask32.
Definition add32 (x y : Z) : Z := w32 (x + y).
Definition rotr (n x : Z) : Z :=
  Z.lor (Z.shiftr x n) (w32 (Z.shiftl x (32 - n))).
Definition Ch (x y z : Z) : Z :=
  Z.lxor (Z.land x y) (Z.land (Z.lxor x mask32) z).
Definition Maj (x y z : Z) : Z :=
  Z.lxor (Z.lxor (Z.land x y) (Z.land x z)) (Z.land y z).
Definition bsig0 (x : Z) : Z := Z.lxor (Z.lxor (rotr 2 x) (rotr 13 x)) (rotr 22 x).
Definition bsig1 (x : Z) : Z := Z.lxor (Z.lxor (rotr 6 x) (rotr 11 x)) (rotr 25 x).
Definition ssig0 (x : Z) : Z := Z.lxor (Z.lxor (rotr 7 x) (rotr 18 x)) (Z.shiftr x 3).
Definition ssig1 (x : Z) : Z := Z.lxor (Z.lxor (rotr 17 x) (rotr 19 x)) (Z.shiftr x 10).

(** The first 64 primes. *)
Definition primes : list Z :=
  [ 2; 3; 5; 7; 11; 13; 17; 19; 23; 29; 31; 37; 41; 43; 47; 53;
    59; 61; 67; 71; 73; 79; 83; 89; 97; 101; 103; 107; 109; 113; 127; 131;
    137; 139; 149; 151; 157; 163; 167; 173; 179; 181; 191; 193; 197; 199;
    211; 223; 227; 229; 233; 239; 241; 251; 257; 263; 269; 271; 277; 281;
    283; 293; 307; 311 ].

(** Integer cube root, found bit by bit from bit [bits - 1] down. *)
Fixpoint cbrt_bits (bits : nat) (n r : Z) : Z :=
  match bits with
  | O => r
  | S b =>
      let r' := r + 2 ^ Z.of_nat b in
      cbrt_bits b n (if r' * r' * r' <=? n then r' else r)
  end.

Definition cbrt (n : Z) : Z := cbrt_bits 40 n 0.

(** Round constants: the first 32 bits of the fractional parts of the cube
    roots of the first 64 primes. *)
Definition K : list Z :=
  Eval vm_compute in map (fun p => w32 (cbrt (p * 2 ^ 96))) primes.

(** Initial hash value: the first 32 bits of the fractional parts of the
    square roots of the first 8 primes. *)
Definition H0 : list Z :=
  Eval vm_compute in map (fun p => w32 (Z.sqrt (p * 2 ^ 64))) (firstn 8 primes).

(** Padding: a 1 bit, zeroes, and the bit length on 64 bits, up to a
    multiple of 64 bytes. *)
Definition pad (msg : list Z) : list Z :=
  let len := Z.of_nat (List.length msg) in
  let zeros := Z.to_nat ((55 - len) mod 64) in
  msg ++ [0x80] ++ repeat 0 zeros ++ Bytes.be_bytes 8 (8 * len).

(** Big-endian 32-bit words of a byte sequence. *)
Fixpoint words (bs : list Z) : list Z :=
  match bs with
  | b0 :: b1 :: b2 :: b3 :: rest =>
      Bytes.be_value [b0; b1; b2; b3] :: words rest
  | _ => []
  end.

(** Message schedule, most recent word first: [ws] holds W(t-1), W(t-2), ... *)
Fixpoint extend (n : nat) (ws : list Z) : list Z :=
  match n with
  | O => ws
  | S k =>
      let w := add32 (add32 (ssig1 (nth 1 ws 0)) (nth 6 ws 0))
                     (add32 (ssig0 (nth 14 ws 0)) (nth 15 ws 0)) in
      extend k (w :: ws)
  end.

Definition schedule (block : list Z) : list Z := rev (extend 48 (rev block)).

Record regs : Type := mkRegs { ra : Z; rb : Z; rc : Z; rd : Z; re : Z; rf : Z; rg : Z; rh : Z }.

Definition round (s : regs) (kw : Z * Z) : regs :=
  let t1 := add32 (add32 (add32 (rh s) (bsig1 (re s))) (Ch (re s) (rf s) (rg s)))
                  (add32 (fst kw) (snd kw)) in
  let t2 := add32 (bsig0 (ra s)) (Maj (ra s) (rb s) (rc s)) in
  mkRegs (add32 t1 t2) (ra s) (rb s) (rc s) (add32 (rd s) t1) (re s) (rf s) (rg s).

Definition regs_of (h : list Z) : regs :=
  mkRegs (nth 0 h 0) (nth 1 h 0) (nth 2 h 0) (nth 3 h 0)
         (nth 4 h 0) (nth 5 h 0) (nth 6 h 0) (nth 7 h 0).

Definition list_of (s : regs) : list Z :=
  [ra s; rb s; rc s; rd s; re s; rf s; rg s; rh s].

Definition compress (h : list Z) (block : list Z) : list Z :=
  let s := fold_left round (combine K (schedule block)) (regs_of h) in
  map (fun p => add32 (fst p) (snd p)) (combine h (list_of s)).

Fixpoint blocks (n : nat) (ws : list Z) (h : list Z) : list Z :=
  match n with
  | O => h
  | S k => blocks k (skipn 16 ws) (compress h (firstn 16 ws))
  end.

(** The 32-byte digest. *)
Definition sha256 (msg : list Z) : list Z :=
  let ws := words (pad msg) in
  flat_map (Bytes.be_bytes 4) (blocks (List.length ws / 16) ws H0).

End Sha256.

(** ** web3.js: public keys and key pairs *)

(** A public key is the integer held in the [_bn] field of the class. *)
Record PublicKey : Type := mkPublicKey { _bn : Z }.

Record Keypair : Type := mkKeypair { publicKey : PublicKey; secretKey : list Z }.

Module PublicKeys.

(** The value a constructor of the class can produce: at most 32 bytes. *)
Definition valid (k : PublicKey) : Prop := 0 <= _bn k < 2 ^ 256.

Definition check (n : Z) : result PublicKey :=
  if BN.byteLength n >? 32
  then Throw (Error "Invalid public key input")
  else Ok (mkPublicKey n).

(** [new PublicKey(n)] for a number. *)
Definition of_number (n : Z) : result PublicKey :=
  rbind (BN.of_number n) check.

(** [new PublicKey(buffer)]. *)
Definition of_bytes (bs : list Z) : result PublicKey :=
  check (Bytes.be_value bs).

(** [new PublicKey(s)] for a string: the base-58 text of 32 bytes. *)
Definition of_string (s : string) : result PublicKey :=
  rbind (Base58.decode s) (fun decoded =>
    if Nat.eqb (List.length decoded) 32
    then of_bytes decoded
    else Throw (Error "Invalid public key input")).

(** [toBuffer()], [toBytes()]: big-endian, padded with zeroes to 32 bytes. *)
Definition toBuffer (k : PublicKey) : list Z := Bytes.be_bytes 32 (_bn k).
Definition toBytes (k : PublicKey) : list Z := toBuffer k.

Definition toBase58 (k : PublicKey) : string := Base58.encode (toBytes k).
Definition toString (k : PublicKey) : string := toBase58 k.

(** The bytes that [createWithSeed] hashes. *)
Definition seed_preimage (fromPublicKey : PublicKey) (seed : string)
           (programId : PublicKey) : list Z :=
  toBuffer fromPublicKey ++ Bytes.of_string seed ++ toBuffer programId.

(** [PublicKey.createWithSeed(fromPublicKey, seed, programId)]. *)
Definition createWithSeed (fromPublicKey : PublicKey) (seed : string)
           (programId : PublicKey) : result PublicKey :=
  of_bytes (Sha256.sha256 (seed_preimage fromPublicKey seed programId)).

End PublicKeys.

(** ** borsh-js *)

Inductive JSValue : Type :=
| JUndefined
| JNumber (n : Z)
| JString (s : string)
| JPublicKey (k : PublicKey)
| JBN (n : Z).

(** A plain object: its own properties in insertion order. *)
Definition JSObject : Type := list (string * JSValue).

Fixpoint get_property (o : JSObject) (name : string) : JSValue :=
  match o with
  | [] => JUndefined
  | (n, v) :: rest => if String.eqb n name then v else get_property rest name
  end.

Module Borsh.

Inductive FieldType : Type := u8 | u16 | u32 | u64 | str.

(** The [fields] of a [{kind: 'struct', fields}] schema entry. *)
Definition StructSchema : Type := list (string * FieldType).

(** *** BinaryWriter

    Each writer returns the bytes it appends.  The outer [option] is [None]
    where the outcome depends on JavaScript's conversion of a string or of
    an object to a number, which is not modelled; no schema field of this
    client reaches such a case. *)

(** [buf.writeUInt8], [buf.writeUInt16LE]: the value is converted to a
    number, [undefined] becomes NaN and is stored as 0, a number out of
    range is refused. *)
Definition writeUInt (width : nat) (value : JSValue) : option (result (list Z)) :=
  match value with
  | JUndefined => Some (Ok (Bytes.le_bytes width 0))
  | JNumber n =>
      Some (if (0 <=? n) && (n <? 256 ^ Z.of_nat width)
            then Ok (Bytes.le_bytes width n)
            else Throw (RangeError "The value of 'value' is out of range"))
  | JString _ | JPublicKey _ | JBN _ => None
  end.

Definition writeU8 := writeUInt 1.
Definition writeU16 := writeUInt 2.
Definition writeU32 := writeUInt 4.

(** [writeBuffer(Buffer.from(new BN(value).toArray('le', 8)))]. *)
Definition writeU64 (value : JSValue) : option (result (list Z)) :=
  match value with
  | JUndefined => Some (BN.toArray 0 BN.le 8)
  | JNumber n => Some (rbind (BN.of_number n) (fun b => BN.toArray b BN.le 8))
  | JBN n => Some (BN.toArray n BN.le 8)
  | JString _ | JPublicKey _ => None
  end.

(** [const b = Buffer.from(str, 'utf8'); writeU32(b.length); writeBuffer(b)].
    [Buffer.from] accepts a string; a number, [undefined] or an object that
    is neither array-like nor convertible to a primitive is a TypeError. *)
Definition writeString (value : JSValue) : option (result (list Z)) :=
  match value with
  | JString s =>
      let b := Bytes.of_string s in
      Some (Ok (Bytes.le_bytes 4 (Z.of_nat (List.length b)) ++ b))
  | JUndefined | JNumber _ | JPublicKey _ =>
      Some (Throw (TypeError "The first argument must be of type string or an instance of Buffer, ArrayBuffer, or Array or an Array-like Object."))
  | JBN _ => None
  end.

Definition serializeField (fieldType : FieldType) (value : JSValue)
  : option (result (list Z)) :=
  match fieldType with
  | u8 => writeU8 value
  | u16 => writeU16 value
  | u32 => writeU32 value
  | u64 => writeU64 value
  | str => writeString value
  end.

(** [structSchema.fields.map(([fieldName, fieldType]) =>
      serializeField(schema, fieldName, obj[fieldName], fieldType, writer))]:
    the fields in schema order; the first exception ends the call. *)
Fixpoint serializeStruct (fields : StructSchema) (obj : string -> JSValue)
  : option (result (list Z)) :=
  match fields with
  | [] => Some (Ok [])
  | (fieldName, fieldType) :: rest =>
      match serializeField fieldType (obj fieldName) with
      | None => None
      | Some (Throw e) => Some (Throw e)
      | Some (Ok bytes) =>
          match serializeStruct rest obj with
          | None => None
          | Some (Throw e) => Some (Throw e)
          | Some (Ok more) => Some (Ok (bytes ++ more))
          end
      end
  end.

Definition serialize (fields : StructSchema) (obj : string -> JSValue)
  : option (result (list Z)) :=
  serializeStruct fields obj.

(** *** BinaryReader

    The reader's cursor is modelled by the bytes not read yet.  Every
    range error of the buffer is rethrown by borsh as a [BorshError]. *)

Definition Reader (A : Type) : Type := list Z -> result (A * list Z).

Definition end_of_buffer {A} : result A :=
  Throw (BorshError "Reached the end of buffer when deserializing").

Definition readUInt (width : nat) : Reader Z :=
  fun buf =>
    if (List.length buf <? width)%nat
    then end_of_buffer
    else Ok (Bytes.le_value (firstn width buf), skipn width buf).

Definition readU8 : Reader JSValue := fun buf =>
  rmap (fun p => (JNumber (fst p), snd p)) (readUInt 1 buf).
Definition readU16 : Reader JSValue := fun buf =>
  rmap (fun p => (JNumber (fst p), snd p)) (readUInt 2 buf).
Definition readU32 : Reader JSValue := fun buf =>
  rmap (fun p => (JNumber (fst p), snd p)) (readUInt 4 buf).

Definition readBuffer (len : nat) : Reader (list Z) :=
  fun buf =>
    if (List.length buf <? len)%nat
    then Throw (BorshError "Expected buffer length isn't within bounds")
    else Ok (firstn len buf, skipn len buf).

(** [new BN(this.readBuffer(8), 'le')]. *)
Definition readU64 : Reader JSValue := fun buf =>
  rmap (fun p => (JBN (Bytes.le_value (fst p)), snd p)) (readBuffer 8 buf).

(** Well-formed UTF-8 as the fatal [TextDecoder] accepts it. *)
Definition cont (lo hi b : Z) : bool := (lo <=? b) && (b <=? hi).

Fixpoint utf8_valid (bs : list Z) : bool :=
  match bs with
  | [] => true
  | b0 :: r0 =>
      if b0 <=? 0x7f then utf8_valid r0 else
      match r0 with
      | [] => false
      | b1 :: r1 =>
          if cont 0xc2 0xdf b0 then cont 0x80 0xbf b1 && utf8_valid r1 else
          match r1 with
          | [] => false
          | b2 :: r2 =>
              if cont 0xe0 0xef b0 then
                cont (if b0 =? 0xe0 then 0xa0 else 0x80)
                     (if b0 =? 0xed then 0x9f else 0xbf) b1
                && cont 0x80 0xbf b2 && utf8_valid r2
              else
              match r2 with
              | [] => false
              | b3 :: r3 =>
                  cont 0xf0 0xf4 b0
                  && cont (if b0 =? 0xf0 then 0x90 else 0x80)
                          (if b0 =? 0xf4 then 0x8f else 0xbf) b1
                  && cont 0x80 0xbf b2 && cont 0x80 0xbf b3 && utf8_valid r3
              end
          end
      end
  end.

(** The decoder drops a leading byte order mark. *)
Definition strip_bom (bs : list Z) : list Z :=
  match bs with
  | 0xef :: 0xbb :: 0xbf :: rest => rest
  | _ => bs
  end.

Definition readString : Reader JSValue := fun buf =>
  rbind (readUInt 4 buf) (fun p =>
  rbind (readBuffer (Z.to_nat (fst p)) (snd p)) (fun q =>
    if utf8_valid (fst q)
    then Ok (JString (Bytes.to_string (strip_bom (fst q))), snd q)
    else Throw (BorshError "Error decoding UTF-8 string"))).

Definition deserializeField (fieldType : FieldType) : Reader JSValue :=
  match fieldType with
  | u8 => readU8
  | u16 => readU16
  | u32 => readU32
  | u64 => readU64
  | str => readString
  end.

(** [result[fieldName] = deserializeField(...)] for every field in schema
    order; an assignment to a name already present replaces its value. *)
Fixpoint set_property (o : JSObject) (name : string) (v : JSValue) : JSObject :=
  match o with
  | [] => [(name, v)]
  | (n, old) :: rest =>
      if String.eqb n name then (n, v) :: rest
      else (n, old) :: set_property rest name v
  end.

Fixpoint deserializeFields (fields : StructSchema) (acc : JSObject) : Reader JSObject :=
  fun buf =>
    match fields with
    | [] => Ok (acc, buf)
    | (fieldName, fieldType) :: rest =>
        rbind (deserializeField fieldType buf) (fun p =>
          deserializeFields rest (set_property acc fieldName (fst p)) (snd p))
    end.

(** [deserialize(schema, classType, buffer)]: the struct is read from the
    start of the buffer, the class is constructed from the object read, and
    bytes left over are an error. *)
Definition deserialize {C : Type} (fields : StructSchema)
           (classType : option JSObject -> C) (buffer : list Z) : result C :=
  rbind (deserializeFields fields [] buffer) (fun p =>
    let result := classType (Some (fst p)) in
    match snd p with
    | [] => Ok result
    | _ :: _ => Throw (BorshError "Unexpected bytes after deserialized data")
    end).

End Borsh.

(** ** The client: account class, schema and size *)

Local Open Scope string_scope.

(** The state of an Agreement account.  TypeScript declares the fields as
    [number] and [PublicKey]; at run time a field holds whatever the
    constructor was given. *)
Record AgreementAccount : Type := mkAgreementAccount {
  status : JSValue;
  owner_pubkey : JSValue;
  tenant_pubkey : JSValue;
  security_escrow_pubkey : JSValue;
  security_deposit : JSValue;
  rent_amount : JSValue;
  duration : JSValue;
  remaining_payments : JSValue;
  start_month : JSValue;
  start_year : JSValue;
  duration_extension_request : JSValue
}.

(** [new PublicKey(0)], the initial value of the three key fields. *)
Definition PublicKey_zero : PublicKey := mkPublicKey 0.

(** The constructor: the field initialisers, overwritten from [fields] when
    the argument is given. *)
Definition new_AgreementAccount (fields : option JSObject) : AgreementAccount :=
  match fields with
  | None =>
      mkAgreementAccount
        (JNumber 0) (JPublicKey PublicKey_zero) (JPublicKey PublicKey_zero)
        (JPublicKey PublicKey_zero) (JNumber 0) (JNumber 0) (JNumber 0)
        (JNumber 0) (JNumber 0) (JNumber 0) (JNumber 0)
  | Some f =>
      mkAgreementAccount
        (get_property f "status")
        (get_property f "owner_pubkey")
        (get_property f "tenant_pubkey")
        (get_property f "security_escrow_pubkey")
        (get_property f "security_deposit")
        (get_property f "rent_amount")
        (get_property f "duration")
        (get_property f "remaining_payments")
        (get_property f "start_month")
        (get_property f "start_year")
        (get_property f "duration_extension_request")
  end.

(** [obj[name]] on an instance: an own field, or [undefined]. *)
Definition AgreementAccount_get (a : AgreementAccount) (name : string) : JSValue :=
  get_property
    [ ("status", status a);
      ("owner_pubkey", owner_pubkey a);
      ("tenant_pubkey", tenant_pubkey a);
      ("security_escrow_pubkey", security_escrow_pubkey a);
      ("security_deposit", security_deposit a);
      ("rent_amount", rent_amount a);
      ("duration", duration a);
      ("remaining_payments", remaining_payments a);
      ("start_month", start_month a);
      ("start_year", start_year a);
      ("duration_extension_request", duration_extension_request a) ]
    name.

(** Borsh schema definition for Agreement accounts. *)
Definition AgreementSchema : Borsh.StructSchema :=
  [ ("pub status", Borsh.u8);
    ("owner_pubkey", Borsh.str);
    ("tenant_pubkey", Borsh.str);
    ("security_escrow_pubkey", Borsh.str);
    ("security_deposit", Borsh.u64);
    ("rent_amount", Borsh.u64);
    ("duration", Borsh.u8);
    ("remaining_payments", Borsh.u8);
    ("start_month", Borsh.u8);
    ("start_year", Borsh.u16);
    ("duration_extension_request", Borsh.u8) ].

Definition encode (a : AgreementAccount) : option (result (list Z)) :=
  Borsh.serialize AgreementSchema (AgreementAccount_get a).

Definition decode (buffer : list Z) : result AgreementAccount :=
  Borsh.deserialize AgreementSchema new_AgreementAccount buffer.

(** The expected size of each Agreement account, as the module computes it
    when it is loaded: the length of the encoding of a fresh instance. *)
Definition AGREEMENT_SIZE : option (result Z) :=
  match encode (new_AgreementAccount None) with
  | None => None
  | Some r => Some (rmap (fun b => Z.of_nat (List.length b)) r)
  end.

(** A field assignment as the class declares it: numbers within the width of
    their schema type and public keys. *)
Definition is_number (width : nat) (v : JSValue) : Prop :=
  exists n, v = JNumber n /\ 0 <= n < 256 ^ Z.of_nat width.

Definition is_key (v : JSValue) : Prop :=
  exists k, v = JPublicKey k /\ PublicKeys.valid k.

Definition valid_account (a : AgreementAccount) : Prop :=
  is_number 1 (status a) /\ is_key (owner_pubkey a) /\ is_key (tenant_pubkey a)
  /\ is_key (security_escrow_pubkey a)
  /\ (exists n, security_deposit a = JNumber n /\ 0 <= n < 2 ^ 53)
  /\ (exists n, rent_amount a = JNumber n /\ 0 <= n < 2 ^ 53)
  /\ is_number 1 (duration a) /\ is_number 1 (remaining_payments a)
  /\ is_number 1 (start_month a) /\ is_number 2 (start_year a)
  /\ is_number 1 (duration_extension_request a).

(** ** The client: network boundary and session *)

Record AccountInfo : Type := mkAccountInfo {
  executable : bool;
  acc_owner : PublicKey;
  acc_lamports : Z;
  acc_data : list Z
}.

Record AccountMeta : Type := mkAccountMeta {
  pubkey : PublicKey;
  isSigner : bool;
  isWritable : bool
}.

Module SystemProgram.
(** Parameters of [SystemProgram.createAccountWithSeed]. *)
Record CreateAccountWithSeedParams : Type := mkParams {
  fromPubkey : PublicKey;
  basePubkey : PublicKey;
  seed : string;
  newAccountPubkey : PublicKey;
  lamports : Z;
  space : Z;
  programId : PublicKey
}.
End SystemProgram.

(** An instruction: a system instruction kept as its parameters, or an
    instruction for a program with its account list and data buffer. *)
Inductive TransactionInstruction : Type :=
| CreateAccountWithSeed (params : SystemProgram.CreateAccountWithSeedParams)
| Instruction (keys : list AccountMeta) (programId : PublicKey) (data : list Z).

Definition Transaction : Type := list TransactionInstruction.

(** The RPC node behind [connection]; every call may fail. *)
Record Connection : Type := mkConnection {
  getAccountInfo : PublicKey -> result (option AccountInfo);
  getMinimumBalanceForRentExemption : Z -> result Z;
  sendAndConfirm : Transaction -> list Keypair -> result string
}.

(** What lies outside the module: the resolved program directory and the
    file system. *)
Record Env : Type := mkEnv {
  PROGRAM_PATH : string;
  createKeypairFromFile : string -> result Keypair;
  existsSync : string -> bool
}.

Definition path_join (dir file : string) : string := dir ++ "/" ++ file.

Definition PROGRAM_SO_PATH (env : Env) : string :=
  path_join (PROGRAM_PATH env) "trusted_properties_marketplace_solana_rust.so".

Definition PROGRAM_KEYPAIR_PATH (env : Env) : string :=
  path_join (PROGRAM_PATH env) "trusted_properties_marketplace_solana_rust-keypair.json".

(** The module-level variables; [None] is [undefined]. *)
Record Session : Type := mkSession {
  connection : option Connection;
  payer : option Keypair;
  programId : option PublicKey;
  agreementPubkey : option PublicKey;
  escrowPubkey : option PublicKey;
  ownerPubkey : option PublicKey;
  tenantPubkey : option PublicKey
}.

(** The requests made to the network, oldest first. *)
Inductive Event : Type :=
| QueryAccountInfo (address : PublicKey)
| QueryMinimumBalance (dataLength : Z)
| Submit (transaction : Transaction) (signers : list Keypair).

Record World : Type := mkWorld { session : Session; trace : list Event }.

(** Computations over the session that may throw; the session and the trace
    keep what was done before the exception. *)
Definition M (A : Type) : Type := World -> result A * World.

Definition ret {A} (a : A) : M A := fun w => (Ok a, w).
Definition throw {A} (e : JSError) : M A := fun w => (Throw e, w).
Definition bind {A B} (m : M A) (k : A -> M B) : M B :=
  fun w =>
    match m w with
    | (Ok a, w') => k a w'
    | (Throw e, w') => (Throw e, w')
    end.
Definition lift {A} (r : result A) : M A := fun w => (r, w).
Definition try_catch {A} (m : M A) (handler : JSError -> M A) : M A :=
  fun w =>
    match m w with
    | (Ok a, w') => (Ok a, w')
    | (Throw e, w') => handler e w'
    end.

Notation "x <- m ;; k" := (bind m (fun x => k))
  (at level 61, m at next level, right associativity).
Notation "m ;;; k" := (bind m (fun _ => k))
  (at level 61, right associativity).

Definition read {A} (field : Session -> option A) (name : string) : M A :=
  fun w =>
    match field (session w) with
    | Some a => (Ok a, w)
    | None => (Throw (TypeError ("Cannot read properties of undefined: " ++ name)), w)
    end.

Definition update (f : Session -> Session) : M unit :=
  fun w => (Ok tt, mkWorld (f (session w)) (trace w)).

Definition emit (e : Event) : M unit :=
  fun w => (Ok tt, mkWorld (session w) (trace w ++ [e])%list).

Definition set_programId (k : PublicKey) (s : Session) : Session :=
  mkSession (connection s) (payer s) (Some k) (agreementPubkey s)
            (escrowPubkey s) (ownerPubkey s) (tenantPubkey s).
Definition set_agreementPubkey (k : PublicKey) (s : Session) : Session :=
  mkSession (connection s) (payer s) (programId s) (Some k)
            (escrowPubkey s) (ownerPubkey s) (tenantPubkey s).
Definition set_ownerPubkey (k : PublicKey) (s : Session) : Session :=
  mkSession (connection s) (payer s) (programId s) (agreementPubkey s)
            (escrowPubkey s) (Some k) (tenantPubkey s).
Definition set_tenantPubkey (k : PublicKey) (s : Session) : Session :=
  mkSession (connection s) (payer s) (programId s) (agreementPubkey s)
            (escrowPubkey s) (ownerPubkey s) (Some k).

(** [await connection.getAccountInfo(address)] and the two other calls. *)
Definition rpc_getAccountInfo (address : PublicKey) : M (option AccountInfo) :=
  conn <- read connection "getAccountInfo" ;;
  emit (QueryAccountInfo address) ;;;
  lift (getAccountInfo conn address).

Definition rpc_getMinimumBalanceForRentExemption (dataLength : Z) : M Z :=
  conn <- read connection "getMinimumBalanceForRentExemption" ;;
  emit (QueryMinimumBalance dataLength) ;;;
  lift (getMinimumBalanceForRentExemption conn dataLength).

Definition sendAndConfirmTransaction (transaction : Transaction)
           (signers : list Keypair) : M string :=
  conn <- read connection "sendTransaction" ;;
  emit (Submit transaction signers) ;;;
  lift (sendAndConfirm conn transaction signers).

Definition message (e : JSError) : string :=
  match e with
  | TypeError m | RangeError m | BorshError m | Error m => m
  end.

Definition OWNER : string := "EJBCNzigNdKMiCueXNaYn3CccMJqmB8DLPZKgfeTWQrh".
Definition TENANT : string := "EGikG1URSBTi3Dc2AHwTV4HBDWu1KmbcD63rTbYWv9Cu".

(** ['agreement' + ownerPubkey.toString() + tenantPubkey.toString()]. *)
Definition AGREEMENT_SEED (ownerPubkey tenantPubkey : PublicKey) : string :=
  "agreement" ++ PublicKeys.toString ownerPubkey ++ PublicKeys.toString tenantPubkey.

(** [checkProgram] reads the module constant [AGREEMENT_SIZE]; [size] is the
    value the constant holds once the module is loaded. *)
Section Client.

Variable env : Env.
Variable size : Z.

(** Check that the program has been deployed, derive the address of the
    Agreement account and create the account when it does not exist. *)
Definition checkProgram : M unit :=
  (* Read program id from keypair file *)
  try_catch
    (programKeypair <- lift (createKeypairFromFile env (PROGRAM_KEYPAIR_PATH env)) ;;
     update (set_programId (publicKey programKeypair)))
    (fun err =>
       throw (Error ("Failed to read program keypair at '" ++ PROGRAM_KEYPAIR_PATH env
                     ++ "' due to error: " ++ message err
                     ++ ". Program may need to be deployed with `npm run deploy`"))) ;;;
  (* Check if the program has been deployed *)
  programId_ <- read programId "programId" ;;
  programInfo <- rpc_getAccountInfo programId_ ;;
  match programInfo with
  | None =>
      if existsSync env (PROGRAM_SO_PATH env)
      then throw (Error "Program needs to be deployed with `npm run deploy`")
      else throw (Error "Program needs to be built and deployed")
  | Some info =>
      if negb (executable info)
      then throw (Error "Program is not executable")
      else ret tt
  end ;;;
  owner <- lift (PublicKeys.of_string OWNER) ;;
  update (set_ownerPubkey owner) ;;;
  tenant <- lift (PublicKeys.of_string TENANT) ;;
  update (set_tenantPubkey tenant) ;;;
  (* Derive the address of the Agreement account *)
  let AGREEMENT_SEED_ := AGREEMENT_SEED owner tenant in
  payer_ <- read payer "publicKey" ;;
  derived <- lift (PublicKeys.createWithSeed (publicKey payer_) AGREEMENT_SEED_ programId_) ;;
  update (set_agreementPubkey derived) ;;;
  (* Check if the Agreement account has already been created *)
  agreementAccount <- rpc_getAccountInfo derived ;;
  match agreementAccount with
  | None =>
      lamports <- rpc_getMinimumBalanceForRentExemption size ;;
      (* Create Agreement account *)
      let transaction :=
        [ CreateAccountWithSeed
            (SystemProgram.mkParams (publicKey payer_) (publicKey payer_)
               AGREEMENT_SEED_ derived lamports size programId_) ] in
      sendAndConfirmTransaction transaction [payer_] ;;;
      ret tt
  | Some _ => ret tt
  end.

End Client.

(** [SYSVAR_RENT_PUBKEY] of web3.js. *)
Definition SYSVAR_RENT_PUBKEY : PublicKey :=
  Eval vm_compute in
    match PublicKeys.of_string "SysvarRent111111111111111111111111111111111" with
    | Ok k => k
    | Throw _ => PublicKey_zero
    end.

(** The [data] of the instruction built by [initContract]:
    [Buffer.from(Uint8Array.of(instruction_index, ...))]. *)
Definition initContract_data (ownerPubkey tenantPubkey agreementPubkey : PublicKey)
  : result (list Z) :=
  let instruction_index := 0 in
  let deposit := 1000 in
  let rentAmount := 500 in
  let duration := 11 in
  let start_month := 1 in
  let start_year := 2022 in
  let toArray n length := rbind (BN.of_number n) (fun b => BN.toArray b BN.le length) in
  rbind (toArray deposit 64) (fun deposit_bytes =>
  rbind (toArray rentAmount 64) (fun rentAmount_bytes =>
  rbind (toArray duration 8) (fun duration_bytes =>
  rbind (toArray start_month 8) (fun start_month_bytes =>
  rbind (toArray start_year 16) (fun start_year_bytes =>
    Ok (Bytes.Uint8Array_of
          (instruction_index
             :: PublicKeys.toBytes ownerPubkey
             ++ PublicKeys.toBytes tenantPubkey
             ++ PublicKeys.toBytes agreementPubkey
             ++ deposit_bytes
             ++ rentAmount_bytes
             ++ duration_bytes
             ++ start_month_bytes
             ++ start_year_bytes)%list)))))).

(** Initialize Rent Agreement Contract. *)
Definition initContract : M unit :=
  agreement <- read agreementPubkey "toBase58" ;;
  owner <- read ownerPubkey "toBytes" ;;
  tenant <- read tenantPubkey "toBytes" ;;
  data <- lift (initContract_data owner tenant agreement) ;;
  programId_ <- read programId "programId" ;;
  payer_ <- read payer "publicKey" ;;
  let instruction :=
    Instruction
      [ mkAccountMeta agreement false true;
        mkAccountMeta agreement false true;
        mkAccountMeta SYSVAR_RENT_PUBKEY false false ]
      programId_ data in
  sendAndConfirmTransaction [instruction] [payer_] ;;;
  ret tt.

Local Close Scope string_scope.

(** ** Vocabulary of the statements *)

(** The keys behind [OWNER] and [TENANT]. *)
Definition ownerKey : PublicKey :=
  Eval vm_compute in
    match PublicKeys.of_string OWNER with Ok k => k | Throw _ => PublicKey_zero end.

Definition tenantKey : PublicKey :=
  Eval vm_compute in
    match PublicKeys.of_string TENANT with Ok k => k | Throw _ => PublicKey_zero end.

(** The address [createWithSeed] returns (see [createWithSeed_derive]). *)
Definition derive (base : PublicKey) (seed : string) (programId : PublicKey) : PublicKey :=
  mkPublicKey (Bytes.be_value (Sha256.sha256 (PublicKeys.seed_preimage base seed programId))).

(** The requests a computation adds to the trace. *)
Definition events_of {A} (m : M A) (w : World) : list Event :=
  skipn (List.length (trace w)) (trace (snd (m w))).

Fixpoint submissions (evs : list Event) : list (Transaction * list Keypair) :=
  match evs with
  | [] => []
  | Submit tx signers :: rest => (tx, signers) :: submissions rest
  | _ :: rest => submissions rest
  end.

Definition is_byte (b : Z) : Prop := 0 <= b < 256.

(** The address [checkProgram] derives for a payer and a program key pair. *)
Definition agreement_address (payer_ programKeypair : Keypair) : PublicKey :=
  derive (publicKey payer_) (AGREEMENT_SEED ownerKey tenantKey) (publicKey programKeypair).

(** The transaction [checkProgram] submits to create the account. *)
Definition creation (payer_ programKeypair : Keypair) (lamports size : Z) : Transaction :=
  [ CreateAccountWithSeed
      (SystemProgram.mkParams (publicKey payer_) (publicKey payer_)
         (AGREEMENT_SEED ownerKey tenantKey)
         (agreement_address payer_ programKeypair)
         lamports size (publicKey programKeypair)) ].

(** The conditions under which [checkProgram] reaches the creation. *)
Definition reaches_creation (env : Env) (size : Z) (w : World)
           (conn : Connection) (payer_ programKeypair : Keypair) (lamports : Z) : Prop :=
  connection (session w) = Some conn
  /\ payer (session w) = Some payer_
  /\ createKeypairFromFile env (PROGRAM_KEYPAIR_PATH env) = Ok programKeypair
  /\ (exists info, getAccountInfo conn (publicKey programKeypair) = Ok (Some info)
                   /\ executable info = true)
  /\ getAccountInfo conn (agreement_address payer_ programKeypair) = Ok None
  /\ getMinimumBalanceForRentExemption conn size = Ok lamports.

(** ** Sample data, used to instantiate the statements *)

Definition demo_payer : Keypair := mkKeypair (mkPublicKey 7) [].
Definition demo_program : Keypair := mkKeypair (mkPublicKey 9) [].

Definition demo_env : Env :=
  mkEnv "/client/dist/program" (fun _ => Ok demo_program) (fun _ => true).

Definition demo_program_info : AccountInfo :=
  mkAccountInfo true (mkPublicKey 2) 1141440 [].

Definition demo_agreement_info : AccountInfo :=
  mkAccountInfo false (publicKey demo_program) 1726080 (repeat 0 120%nat).

(** A node that knows the program and, when [provisioned], the agreement
    account. *)
Definition demo_node (provisioned : bool) : Connection :=
  mkConnection
    (fun k =>
       if _bn k =? _bn (publicKey demo_program) then Ok (Some demo_program_info)
       else if provisioned && (_bn k =? _bn (agreement_address demo_payer demo_program))
            then Ok (Some demo_agreement_info)
            else Ok None)
    (fun dataLength => Ok ((dataLength + 128) * 6960))
    (fun _ _ => Ok "signature"%string).

Definition demo_world (provisioned : bool) : World :=
  mkWorld (mkSession (Some (demo_node provisioned)) (Some demo_payer)
                     None None None None None) [].

(** A second environment and session for the same payer and program: another
    directory, no shared object on disk, stale session variables. *)
Definition demo_env' : Env :=
  mkEnv "/elsewhere" (fun _ => Ok (mkKeypair (publicKey demo_program) [1; 2; 3]))
        (fun _ => false).

Definition demo_world' : World :=
  mkWorld (mkSession (Some (demo_node true))
                     (Some (mkKeypair (publicKey demo_payer) [4; 5; 6]))
                     (Some (mkPublicKey 1)) (Some (mkPublicKey 2)) None
                     (Some (mkPublicKey 3)) (Some (mkPublicKey 4)))
          [QueryMinimumBalance 5].

(** The session [checkProgram] leaves on the sample deployment, and what
    [initContract] then submits. *)
Definition demo_initialized : World := snd (checkProgram demo_env 120 (demo_world true)).

Definition demo_submission : Transaction * list Keypair :=
  hd ([], []) (submissions (events_of initContract demo_initialized)).

Definition is_digit58 (d : Z) : Prop := 0 <= d < 58.

(** A text that does not start with the leader character. *)
Definition no_leader (cs : list ascii) : Prop :=
  match cs with
  | [] => True
  | c :: _ => c <> Base58.LEADER
  end.

(** Two pairs of identities whose texts have 43 and 44, and 44 and 43
    characters. *)
Definition pair1_owner : PublicKey := mkPublicKey (2 ^ 249).
Definition pair1_tenant : PublicKey := mkPublicKey (58 ^ 43 + 2 ^ 250).
Definition pair2_owner : PublicKey := mkPublicKey (2 ^ 249 * 58 + 1).
Definition pair2_tenant : PublicKey := mkPublicKey (2 ^ 250).

(** An account whose identities are given as text, the type the schema
    declares for them. *)
Definition text_account (status_ : Z) (owner tenant escrow : string) : AgreementAccount :=
  mkAgreementAccount (JNumber status_) (JString owner) (JString tenant) (JString escrow)
    (JNumber 1000) (JNumber 500) (JNumber 11) (JNumber 11) (JNumber 1)
    (JNumber 2022) (JNumber 0).

(** An account as the class declares it: numbers and public keys. *)
Definition typed_account : AgreementAccount :=
  mkAgreementAccount (JNumber 1) (JPublicKey ownerKey) (JPublicKey tenantKey)
    (JPublicKey PublicKey_zero)
    (JNumber 1000) (JNumber 500) (JNumber 11) (JNumber 11) (JNumber 1)
    (JNumber 2022) (JNumber 0).

Definition is_TypeError {A} (r : option (result A)) : Prop :=
  exists msg, r = Some (Throw (TypeError msg)).





(** Hexadecimal text of a byte sequence. *)
Definition hex2 (b : Z) : string :=
  let d x :=
    match String.get (Z.to_nat x) "0123456789abcdef" with
    | Some c => c
    | None => "?"%char
    end in
  String (d (b / 16)) (String (d (b mod 16)) EmptyString).

Definition hex (bs : list Z) : string := String.concat EmptyString (map hex2 bs).

(** ** The rest of the client: connection, payer and [main] *)

Definition set_connection (c : Connection) (s : Session) : Session :=
  mkSession (Some c) (payer s) (programId s) (agreementPubkey s)
            (escrowPubkey s) (ownerPubkey s) (tenantPubkey s).
Definition set_payer (k : Keypair) (s : Session) : Session :=
  mkSession (connection s) (Some k) (programId s) (agreementPubkey s)
            (escrowPubkey s) (ownerPubkey s) (tenantPubkey s).

(** The helpers imported from [./utils] and the calls on [connection] that
    [establishConnection] and [establishPayer] make; every call may fail.
    [getRecentBlockhash] gives [feeCalculator.lamportsPerSignature]. *)
Record Cluster : Type := mkCluster {
  getRpcUrl : result string;
  newConnection : string -> Connection;
  getVersion : Connection -> result string;
  getRecentBlockhash : Connection -> result Z;
  getBalance : Connection -> PublicKey -> result Z;
  requestAirdrop : Connection -> PublicKey -> Z -> result string;
  confirmTransaction : Connection -> string -> result unit;
  getPayer : result Keypair;
  newAccountWithLamports : Connection -> Z -> result Keypair
}.

(** The calls of these two functions, oldest first. *)
Inductive Request : Type :=
| GetRpcUrl
| GetVersion
| GetRecentBlockhash
| GetPayer
| NewAccountWithLamports (lamports : Z)
| GetBalance (address : PublicKey)
| RequestAirdrop (address : PublicKey) (lamports : Z)
| ConfirmTransaction (signature : string).

(** The state of a whole run: the session with its trace, and the calls of
    [establishConnection] and [establishPayer]. *)
Record Client : Type := mkClient { world : World; requests : list Request }.

Definition MX (A : Type) : Type := Client -> result A * Client.

Definition xret {A} (a : A) : MX A := fun c => (Ok a, c).
Definition xbind {A B} (m : MX A) (k : A -> MX B) : MX B :=
  fun c =>
    match m c with
    | (Ok a, c') => k a c'
    | (Throw e, c') => (Throw e, c')
    end.
Definition xtry_catch {A} (m : MX A) (handler : JSError -> MX A) : MX A :=
  fun c =>
    match m c with
    | (Ok a, c') => (Ok a, c')
    | (Throw e, c') => handler e c'
    end.

(** A computation on the session, run inside a whole run. *)
Definition base {A} (m : M A) : MX A :=
  fun c =>
    match m (world c) with
    | (r, w') => (r, mkClient w' (requests c))
    end.

(** A call that is recorded, then answered. *)
Definition call {A} (r : Request) (answer : result A) : MX A :=
  fun c => (answer, mkClient (world c) (requests c ++ [r])).

Notation "x <~ m ;; k" := (xbind m (fun x => k))
  (at level 61, m at next level, right associativity).
Notation "m ;;~ k" := (xbind m (fun _ => k))
  (at level 61, right associativity).

Section Run.

Variable cluster : Cluster.
Variable env : Env.
Variable size : Z.

(** Establish a connection to the cluster. *)
Definition establishConnection : MX unit :=
  rpcUrl <~ call GetRpcUrl (getRpcUrl cluster) ;;
  let conn := newConnection cluster rpcUrl in
  base (update (set_connection conn)) ;;~
  version <~ call GetVersion (getVersion cluster conn) ;;
  xret tt.

(** The body of [if (!payer)]: the fees, and the payer from the
    configuration or, failing that, a new funded account. *)
Definition fund_payer : MX Z :=
  conn <~ base (read connection "getRecentBlockhash") ;;
  lamportsPerSignature <~ call GetRecentBlockhash (getRecentBlockhash cluster conn) ;;
  (* Calculate the cost to fund the account *)
  rentExemptForAgreement <~ base (rpc_getMinimumBalanceForRentExemption size) ;;
  let fees := 0 + rentExemptForAgreement in
  (* Calculate the cost of sending transactions *)
  let fees := fees + lamportsPerSignature * 100 in
  xtry_catch
    (payer_ <~ call GetPayer (getPayer cluster) ;;
     base (update (set_payer payer_)))
    (fun err =>
       payer_ <~ call (NewAccountWithLamports fees)
                      (newAccountWithLamports cluster conn fees) ;;
       base (update (set_payer payer_))) ;;~
  xret fees.

(** Establish the account to pay for everything. *)
Definition establishPayer : MX unit :=
  fees <~ (fun c =>
             match payer (session (world c)) with
             | None => fund_payer c
             | Some _ => xret 0 c
             end) ;;
  conn <~ base (read connection "getBalance") ;;
  payer_ <~ base (read payer "publicKey") ;;
  lamports <~ call (GetBalance (publicKey payer_))
                   (getBalance cluster conn (publicKey payer_)) ;;
  (if lamports <? fees
   then
     sig <~ call (RequestAirdrop (publicKey payer_) (fees - lamports))
                 (requestAirdrop cluster conn (publicKey payer_) (fees - lamports)) ;;
     call (ConfirmTransaction sig) (confirmTransaction cluster conn sig)
   else xret tt) ;;~
  xret tt.



End Run.





(** A sample cluster: the payer is in the configuration or not, and holds
    [balance]. *)
Definition demo_cluster (configured : bool) (balance : Z) : Cluster :=
  mkCluster
    (Ok "http://localhost:8899"%string)
    (fun _ => demo_node false)
    (fun _ => Ok "1.8.11"%string)
    (fun _ => Ok 5000)
    (fun _ _ => Ok balance)
    (fun _ _ _ => Ok "airdrop"%string)
    (fun _ _ => Ok tt)
    (if configured then Ok demo_payer else Throw (Error "no keypair in the configuration"))
    (fun _ _ => Ok demo_payer).



(** A node that knows no account at all, and a session connected to it. *)
Definition demo_empty_node : Connection :=
  mkConnection (fun _ => Ok None) (fun _ => Ok 0) (fun _ _ => Ok "signature"%string).

Definition demo_undeployed : World :=
  mkWorld (mkSession (Some demo_empty_node) (Some demo_payer) None None None None None) [].

(** ** The account schema on text identities *)

(** An account with another status. *)
Definition with_status (s : JSValue) (a : AgreementAccount) : AgreementAccount :=
  mkAgreementAccount s (owner_pubkey a) (tenant_pubkey a) (security_escrow_pubkey a)
    (security_deposit a) (rent_amount a) (duration a) (remaining_payments a)
    (start_month a) (start_year a) (duration_extension_request a).

(** A text the string reader gives back as it was written: well-formed
    UTF-8, without a leading byte order mark, shorter than 2^32 bytes. *)
Definition plain_text (s : string) : Prop :=
  Borsh.utf8_valid (Bytes.of_string s) = true
  /\ Borsh.strip_bom (Bytes.of_string s) = Bytes.of_string s
  /\ Z.of_nat (List.length (Bytes.of_string s)) < 2 ^ 32.

(** The Borsh encoding of a string: its length on four bytes, then its
    bytes. *)
Definition text_bytes (s : string) : list Z :=
  Bytes.le_bytes 4 (Z.of_nat (List.length (Bytes.of_string s))) ++ Bytes.of_string s.

(** The fields of an account given as text and numbers, and what such an
    account is encoded to. *)
Definition text_record (status_ : JSValue) (owner tenant escrow : string)
           (deposit rent duration_ remaining month year extension : Z) : AgreementAccount :=
  mkAgreementAccount status_ (JString owner) (JString tenant) (JString escrow)
    (JNumber deposit) (JNumber rent) (JNumber duration_) (JNumber remaining)
    (JNumber month) (JNumber year) (JNumber extension).

Definition text_record_bytes (owner tenant escrow : string)
           (deposit rent duration_ remaining month year extension : Z) : list Z :=
  Bytes.le_bytes 1 0 ++ text_bytes owner ++ text_bytes tenant ++ text_bytes escrow
  ++ Bytes.le_bytes 8 deposit ++ Bytes.le_bytes 8 rent
  ++ Bytes.le_bytes 1 duration_ ++ Bytes.le_bytes 1 remaining
  ++ Bytes.le_bytes 1 month ++ Bytes.le_bytes 2 year ++ Bytes.le_bytes 1 extension ++ [].

(** The ranges of the numeric fields of the schema; the two amounts are
    JavaScript numbers, below 2^53. *)
Definition numbers_in_range (deposit rent duration_ remaining month year extension : Z)
  : Prop :=
  0 <= deposit < 2 ^ 53 /\ 0 <= rent < 2 ^ 53
  /\ 0 <= duration_ < 256 /\ 0 <= remaining < 256 /\ 0 <= month < 256
  /\ 0 <= year < 65536 /\ 0 <= extension < 256.

(** * Properties *)

(** ** Test vectors of the library models *)

Example sha256_abc :
  hex (Sha256.sha256 (Bytes.of_string "abc"))
  = "ba7816bf8f01cfea414140de5dae2223b00361a396177a9cb410ff61f20015ad"%string.
Proof. vm_compute. reflexivity. Qed.

Example sha256_empty :
  hex (Sha256.sha256 [])
  = "e3b0c44298fc1c149afbf4c8996fb92427ae41e4649b934ca495991b7852b855"%string.
Proof. vm_compute. reflexivity. Qed.

Example sha256_two_blocks :
  hex (Sha256.sha256 (Bytes.of_string "abcdbcdecdefdefgefghfghighijhijkijkljklmklmnlmnomnopnopq"))
  = "248d6a61d20638b8e5c026930c3e6039a33ce45964ff2167f6ecedd419db06c1"%string.
Proof. vm_compute. reflexivity. Qed.

Example b58_zero : Base58.encode (repeat 0 32%nat) = "11111111111111111111111111111111"%string.
Proof. vm_compute. reflexivity. Qed.

Example b58_rt :
  rmap Base58.encode (Base58.decode "EJBCNzigNdKMiCueXNaYn3CccMJqmB8DLPZKgfeTWQrh")
  = Ok "EJBCNzigNdKMiCueXNaYn3CccMJqmB8DLPZKgfeTWQrh"%string.
Proof. vm_compute. reflexivity. Qed.

Example bn_1000 : BN.toArray 1000 BN.le 8 = Ok [232; 3; 0; 0; 0; 0; 0; 0].
Proof. vm_compute. reflexivity. Qed.

(** ** Byte sequences: lengths and ranges *)

Lemma le_bytes_length (n : nat) (z : Z) : List.length (Bytes.le_bytes n z) = n.
Proof.
  revert z; induction n as [|n IH]; intros z; simpl; [reflexivity|].
  now rewrite IH.
Qed.

Lemma be_bytes_length (n : nat) (z : Z) : List.length (Bytes.be_bytes n z) = n.
Proof. unfold Bytes.be_bytes. now rewrite length_rev, le_bytes_length. Qed.

Lemma le_bytes_range (n : nat) (z : Z) : Forall is_byte (Bytes.le_bytes n z).
Proof.
  revert z; induction n as [|n IH]; intros z; simpl; constructor.
  - unfold is_byte. apply Z.mod_pos_bound. lia.
  - apply IH.
Qed.

Lemma be_bytes_range (n : nat) (z : Z) : Forall is_byte (Bytes.be_bytes n z).
Proof.
  unfold Bytes.be_bytes. apply Forall_forall. intros b Hb.
  apply in_rev in Hb. revert b Hb. apply Forall_forall, le_bytes_range.
Qed.

Lemma Uint8Array_of_bytes (bs : list Z) :
  Forall is_byte bs -> Bytes.Uint8Array_of bs = bs.
Proof.
  unfold Bytes.Uint8Array_of. induction 1 as [|b bs Hb _ IH]; simpl; [reflexivity|].
  rewrite IH. f_equal. apply Z.mod_small. exact Hb.
Qed.

Lemma le_value_bound (bs : list Z) :
  Forall is_byte bs -> 0 <= Bytes.le_value bs < 256 ^ Z.of_nat (List.length bs).
Proof.
  induction 1 as [|b bs Hb _ IH]; cbn [Bytes.le_value].
  - simpl. lia.
  - replace (Z.of_nat (List.length (b :: bs))) with (Z.succ (Z.of_nat (List.length bs)))
      by (simpl List.length; lia).
    rewrite Z.pow_succ_r by lia. unfold is_byte in Hb. lia.
Qed.

Lemma le_value_le_bytes (n : nat) (z : Z) :
  0 <= z < 256 ^ Z.of_nat n -> Bytes.le_value (Bytes.le_bytes n z) = z.
Proof.
  revert z; induction n as [|n IH]; intros z Hz.
  - simpl in *. lia.
  - cbn [Bytes.le_bytes Bytes.le_value].
    rewrite IH.
    + pose proof (Z.div_mod z 256). lia.
    + replace (Z.of_nat (S n)) with (Z.succ (Z.of_nat n)) in Hz by lia.
      rewrite Z.pow_succ_r in Hz by lia.
      split; [apply Z.div_pos; lia|].
      apply Z.div_lt_upper_bound; lia.
Qed.

Lemma be_value_be_bytes (n : nat) (z : Z) :
  0 <= z < 256 ^ Z.of_nat n -> Bytes.be_value (Bytes.be_bytes n z) = z.
Proof.
  intros Hz. unfold Bytes.be_value, Bytes.be_bytes.
  rewrite rev_involutive. now apply le_value_le_bytes.
Qed.

Lemma be_value_bound (bs : list Z) :
  Forall is_byte bs -> 0 <= Bytes.be_value bs < 256 ^ Z.of_nat (List.length bs).
Proof.
  intros H. unfold Bytes.be_value. rewrite <- length_rev.
  apply le_value_bound. apply Forall_forall. intros b Hb.
  apply in_rev in Hb. revert b Hb. now apply Forall_forall.
Qed.

Lemma byteLength_bound (n : Z) (k : Z) :
  0 <= k -> 0 <= n < 256 ^ k -> BN.byteLength n <= k.
Proof.
  intros Hk Hn. unfold BN.byteLength.
  rewrite Z.abs_eq by lia.
  destruct (Z.eqb_spec n 0) as [->|Hnz]; [lia|].
  assert (Hlog : Z.log2 n < 8 * k).
  { apply Z.log2_lt_pow2; [lia|].
    replace (2 ^ (8 * k)) with (256 ^ k); [lia|].
    rewrite Z.pow_mul_r by lia. reflexivity. }
  apply Z.lt_succ_r. apply Z.div_lt_upper_bound; lia.
Qed.

(** ** SHA-256 yields 32 bytes, so [createWithSeed] never throws *)

Lemma compress_length (h block : list Z) :
  List.length h = 8%nat -> List.length (Sha256.compress h block) = 8%nat.
Proof.
  intros Hh. unfold Sha256.compress.
  rewrite length_map, length_combine, Hh. reflexivity.
Qed.

Lemma blocks_length (n : nat) (ws h : list Z) :
  List.length h = 8%nat -> List.length (Sha256.blocks n ws h) = 8%nat.
Proof.
  revert ws h; induction n as [|n IH]; intros ws h Hh; simpl; [exact Hh|].
  apply IH. now apply compress_length.
Qed.

Lemma flat_map_be_bytes (n : nat) (ws : list Z) :
  List.length (flat_map (Bytes.be_bytes n) ws) = (n * List.length ws)%nat
  /\ Forall is_byte (flat_map (Bytes.be_bytes n) ws).
Proof.
  induction ws as [|x ws [IHl IHr]]; simpl.
  - split; [lia | constructor].
  - split.
    + rewrite length_app, be_bytes_length, IHl. lia.
    + apply Forall_app. split; [apply be_bytes_range | exact IHr].
Qed.

Lemma sha256_length (msg : list Z) : List.length (Sha256.sha256 msg) = 32%nat.
Proof.
  unfold Sha256.sha256.
  destruct (flat_map_be_bytes 4 (Sha256.blocks
    (List.length (Sha256.words (Sha256.pad msg)) / 16)
    (Sha256.words (Sha256.pad msg)) Sha256.H0)) as [Hl _].
  rewrite Hl, blocks_length; reflexivity.
Qed.

Lemma sha256_bytes (msg : list Z) : Forall is_byte (Sha256.sha256 msg).
Proof. unfold Sha256.sha256. apply flat_map_be_bytes. Qed.

Lemma createWithSeed_derive (base : PublicKey) (seed : string) (programId : PublicKey) :
  PublicKeys.createWithSeed base seed programId = Ok (derive base seed programId).
Proof.
  unfold PublicKeys.createWithSeed, PublicKeys.of_bytes, PublicKeys.check, derive.
  pose proof (be_value_bound _ (sha256_bytes (PublicKeys.seed_preimage base seed programId))) as Hb.
  rewrite sha256_length in Hb.
  set (digest := Sha256.sha256 _) in *.
  pose proof (byteLength_bound (Bytes.be_value digest) 32 ltac:(lia) Hb) as Hlen.
  destruct (Z.gtb_spec (BN.byteLength (Bytes.be_value digest)) 32); [lia | reflexivity].
Qed.

Lemma derive_valid (base : PublicKey) (seed : string) (programId : PublicKey) :
  PublicKeys.valid (derive base seed programId).
Proof.
  unfold PublicKeys.valid, derive. cbn [_bn].
  pose proof (be_value_bound _ (sha256_bytes (PublicKeys.seed_preimage base seed programId))) as Hb.
  rewrite sha256_length in Hb.
  change (2 ^ 256) with (256 ^ Z.of_nat 32). exact Hb.
Qed.

(** ** The runs of [checkProgram] *)

(** The proofs below never look inside the hash. *)
Opaque Sha256.sha256.

Lemma owner_ok : PublicKeys.of_string OWNER = Ok ownerKey.
Proof. vm_compute. reflexivity. Qed.

Lemma tenant_ok : PublicKeys.of_string TENANT = Ok tenantKey.
Proof. vm_compute. reflexivity. Qed.

Lemma events_of_eq {A} (m : M A) (w : World) (evs : list Event) :
  trace (snd (m w)) = (trace w ++ evs)%list -> events_of m w = evs.
Proof.
  intros H. unfold events_of. rewrite H.
  rewrite skipn_app, skipn_all, Nat.sub_diag. reflexivity.
Qed.

(** Symbolic execution: unfold the monad, then split on the result a run is
    waiting for, outermost call first. *)
Ltac unfold_run :=
  cbv [checkProgram initContract bind ret throw lift try_catch read update emit
       rpc_getAccountInfo rpc_getMinimumBalanceForRentExemption
       sendAndConfirmTransaction set_programId set_agreementPubkey
       set_ownerPubkey set_tenantPubkey];
  rewrite ?owner_ok, ?tenant_ok.

Ltac run_cbn :=
  cbn [session trace connection payer programId agreementPubkey ownerPubkey
       tenantPubkey escrowPubkey fst snd negb].

Ltac run_step :=
  run_cbn;
  rewrite ?createWithSeed_derive;
  match goal with
  | |- context [match ?x with _ => _ end] =>
      lazymatch x with
      | context [match _ with _ => _ end] => fail
      | _ => first [ is_var x; destruct x | destruct x eqn:? ]
      end
  end.

Ltac trace_witness :=
  first [ exists []; split; [now rewrite app_nil_r |]
        | eexists; split; [rewrite <- ?app_assoc; reflexivity |] ].

Lemma checkProgram_submits (env : Env) (size : Z) (w : World) :
  exists evs,
    trace (snd (checkProgram env size w)) = (trace w ++ evs)%list
    /\ (submissions evs = []
        \/ exists conn payer_ programKeypair lamports,
             reaches_creation env size w conn payer_ programKeypair lamports
             /\ submissions evs = [(creation payer_ programKeypair lamports size, [payer_])]).
Proof.
  destruct w as [[conn_ payer__ pid ag es ow te] t].
  unfold reaches_creation. unfold_run.
  repeat run_step.
  all: cbn [fst snd trace session].
  all: try (trace_witness; cbn [submissions app]; try (left; reflexivity)).
  all: match goal with
       | Hk : createKeypairFromFile _ _ = Ok ?a,
         Hp : getAccountInfo ?c (publicKey ?a) = Ok (Some ?i),
         Hx : negb (executable ?i) = false,
         Hq : getAccountInfo ?c (derive (publicKey ?k) _ _) = Ok None,
         Hm : getMinimumBalanceForRentExemption ?c _ = Ok ?l |- _ =>
           right; exists c, k, a, l;
           split; [|reflexivity];
           split; [reflexivity|];
           split; [reflexivity|];
           split; [reflexivity|];
           split; [exists i; split; [exact Hp | now destruct (executable i)]|];
           split; [exact Hq | exact Hm]
       end.
Qed.


Lemma checkProgram_ok_address (env : Env) (size : Z) (w : World) :
  fst (checkProgram env size w) = Ok tt ->
  exists payer_ programKeypair,
    payer (session w) = Some payer_
    /\ createKeypairFromFile env (PROGRAM_KEYPAIR_PATH env) = Ok programKeypair
    /\ programId (session (snd (checkProgram env size w))) = Some (publicKey programKeypair)
    /\ agreementPubkey (session (snd (checkProgram env size w)))
       = Some (agreement_address payer_ programKeypair).
Proof.
  destruct w as [[conn_ payer__ pid ag es ow te] t].
  unfold agreement_address. unfold_run.
  repeat run_step.
  all: run_cbn; intros Hok; try discriminate Hok.
  all: match goal with
       | Hk : createKeypairFromFile _ _ = Ok ?a |- context [Some ?k = Some _] =>
           exists k, a; repeat split; reflexivity
       end.
Qed.

(** ** The runs of [initContract] *)

Lemma initContract_data_eq (owner tenant agreement : PublicKey) :
  initContract_data owner tenant agreement
  = Ok (0 :: PublicKeys.toBytes owner ++ PublicKeys.toBytes tenant
          ++ PublicKeys.toBytes agreement
          ++ Bytes.le_bytes 64 1000 ++ Bytes.le_bytes 64 500
          ++ Bytes.le_bytes 8 11 ++ Bytes.le_bytes 8 1 ++ Bytes.le_bytes 16 2022).
Proof.
  unfold initContract_data. cbv zeta.
  assert (Hbn : forall n len, 0 <= n < 2 ^ 53 -> BN.byteLength n <= len -> 0 < len ->
            rbind (BN.of_number n) (fun b => BN.toArray b BN.le len)
            = Ok (Bytes.le_bytes (Z.to_nat len) n)).
  { intros n len Hn Hlen Hpos. unfold BN.of_number, BN.toArray.
    rewrite Z.abs_eq by lia.
    destruct (Z.ltb_spec n (2 ^ 53)); [|lia]. cbn [rbind].
    destruct (Z.eqb_spec len 0); [lia|].
    destruct (Z.ltb_spec len (BN.byteLength n)); [lia|].
    destruct (Z.leb_spec len 0); [lia|].
    rewrite Z.abs_eq by lia. reflexivity. }
  rewrite !Hbn by (vm_compute; intuition congruence). cbn [rbind].
  f_equal. apply Uint8Array_of_bytes.
  constructor; [unfold is_byte; lia|].
  unfold PublicKeys.toBytes, PublicKeys.toBuffer.
  do 3 (apply Forall_app; split; [apply be_bytes_range|]).
  do 4 (apply Forall_app; split; [apply le_bytes_range|]).
  apply le_bytes_range.
Qed.

Lemma initContract_submits (w : World) :
  exists evs,
    trace (snd (initContract w)) = (trace w ++ evs)%list
    /\ (submissions evs = []
        \/ exists agreement owner tenant programId_ payer_ data,
             agreementPubkey (session w) = Some agreement
             /\ ownerPubkey (session w) = Some owner
             /\ tenantPubkey (session w) = Some tenant
             /\ programId (session w) = Some programId_
             /\ payer (session w) = Some payer_
             /\ initContract_data owner tenant agreement = Ok data
             /\ submissions evs
                = [([Instruction [ mkAccountMeta agreement false true;
                                    mkAccountMeta agreement false true;
                                    mkAccountMeta SYSVAR_RENT_PUBKEY false false ]
                                 programId_ data], [payer_])]).
Proof.
  destruct w as [[conn_ payer__ pid ag es ow te] t].
  unfold_run.
  repeat run_step.
  all: run_cbn.
  all: try (trace_witness; cbn [submissions app]; try (left; reflexivity)).
  all: right; do 6 eexists.
  all: do 5 (split; [reflexivity|]).
  all: split; [eassumption | reflexivity].
Qed.

(** ** C1: the data buffer of the initialize instruction *)

(** C1 (as the code behaves).  For all identities the data buffer built by
    [initContract] starts with the discriminant 0, the owner's 32 bytes and
    the tenant's 32 bytes, followed by the 32 bytes of the agreement address;
    the five numbers that follow are little-endian but take 64, 64, 8, 8 and
    16 bytes, since the widths given to [toArray] count bytes: the buffer has
    257 bytes, not the 115 of the fixed widths 8, 8, 1, 1 and 2. *)
Theorem initContract_data_layout (owner tenant agreement : PublicKey) :
  exists data,
    initContract_data owner tenant agreement = Ok data
    /\ data = ([0] ++ PublicKeys.toBytes owner ++ PublicKeys.toBytes tenant
               ++ PublicKeys.toBytes agreement
               ++ Bytes.le_bytes 64 1000 ++ Bytes.le_bytes 64 500
               ++ Bytes.le_bytes 8 11 ++ Bytes.le_bytes 8 1
               ++ Bytes.le_bytes 16 2022)%list
    /\ List.length (PublicKeys.toBytes owner) = 32%nat
    /\ List.length (PublicKeys.toBytes tenant) = 32%nat
    /\ List.length (PublicKeys.toBytes agreement) = 32%nat
    /\ List.length data = 257%nat
    /\ List.length data <> (1 + 32 + 32 + 32 + 8 + 8 + 1 + 1 + 2)%nat.
Proof.
  eexists. split; [apply initContract_data_eq|].
  split; [reflexivity|].
  unfold PublicKeys.toBytes, PublicKeys.toBuffer.
  rewrite !be_bytes_length. do 3 (split; [reflexivity|]).
  assert (Hlen : List.length
            (0 :: Bytes.be_bytes 32 (_bn owner) ++ Bytes.be_bytes 32 (_bn tenant)
               ++ Bytes.be_bytes 32 (_bn agreement)
               ++ Bytes.le_bytes 64 1000 ++ Bytes.le_bytes 64 500
               ++ Bytes.le_bytes 8 11 ++ Bytes.le_bytes 8 1
               ++ Bytes.le_bytes 16 2022) = 257%nat).
  { cbn [List.length]. rewrite !length_app, !be_bytes_length, !le_bytes_length.
    reflexivity. }
  rewrite Hlen. split; [reflexivity | discriminate].
Qed.

(** ** C5: provisioning is idempotent *)

(** C5.  An invocation of [checkProgram] submits at most one transaction,
    and when the account query at the derived agreement address returns an
    account it submits none. *)
Theorem checkProgram_idempotent (env : Env) (size : Z) (w : World) :
  (List.length (submissions (events_of (checkProgram env size) w)) <= 1)%nat
  /\ forall conn payer_ programKeypair info,
       connection (session w) = Some conn ->
       payer (session w) = Some payer_ ->
       createKeypairFromFile env (PROGRAM_KEYPAIR_PATH env) = Ok programKeypair ->
       getAccountInfo conn (agreement_address payer_ programKeypair) = Ok (Some info) ->
       submissions (events_of (checkProgram env size) w) = [].
Proof.
  destruct (checkProgram_submits env size w) as (evs & Htrace & Hsub).
  rewrite (events_of_eq _ _ _ Htrace).
  split.
  - destruct Hsub as [-> | (c & p & kp & l & _ & ->)]; simpl; lia.
  - intros conn payer_ programKeypair info Hconn Hpayer Hkp Hinfo.
    destruct Hsub as [Hnone | (c & p & kp & l & Hreach & _)]; [exact Hnone|].
    destruct Hreach as (Hc & Hp & Hk & _ & Hquery & _).
    rewrite Hconn in Hc. rewrite Hpayer in Hp. rewrite Hkp in Hk.
    injection Hc as <-. injection Hp as <-. injection Hk as <-.
    rewrite Hinfo in Hquery. discriminate Hquery.
Qed.

(** The sample deployment with the agreement account in place: nothing is
    submitted. *)
Lemma checkProgram_idempotent_witness :
  submissions (events_of (checkProgram demo_env 120) (demo_world true)) = [].
Proof.
  apply (proj2 (checkProgram_idempotent demo_env 120 (demo_world true))
           (demo_node true) demo_payer demo_program demo_agreement_info).
  - reflexivity.
  - reflexivity.
  - reflexivity.
  - vm_compute. reflexivity.
Defined.

(** ** C7: the create-account instruction *)

(** Every transaction [checkProgram] submits is the creation, and is
    submitted only after the query at the derived address found nothing. *)
Lemma checkProgram_only_creation (env : Env) (size : Z) (w : World)
      (tx : Transaction) (signers : list Keypair) :
  In (tx, signers) (submissions (events_of (checkProgram env size) w)) ->
  exists conn payer_ programKeypair lamports,
    reaches_creation env size w conn payer_ programKeypair lamports
    /\ tx = creation payer_ programKeypair lamports size
    /\ signers = [payer_].
Proof.
  destruct (checkProgram_submits env size w) as (evs & Htrace & Hsub).
  rewrite (events_of_eq _ _ _ Htrace).
  destruct Hsub as [-> | (c & p & kp & l & Hreach & ->)]; intros Hin.
  - destruct Hin.
  - destruct Hin as [Heq | []]. injection Heq as <- <-.
    exists c, p, kp, l. split; [exact Hreach | split; reflexivity].
Qed.



(** ** C8: the derivation is a function of its three inputs *)

(** C8.  [createWithSeed] returns, for every base key, seed and program
    identity, the address [derive] computes from these three values alone;
    and two successful runs of [checkProgram], in whatever environments, on
    whatever nodes, from whatever sessions, leave the same agreement address
    as soon as they agree on the payer's public key and on the program's. *)
Theorem derivation_deterministic
        (env1 env2 : Env) (size1 size2 : Z) (w1 w2 : World)
        (payer1 payer2 programKeypair1 programKeypair2 : Keypair) :
  payer (session w1) = Some payer1 ->
  payer (session w2) = Some payer2 ->
  createKeypairFromFile env1 (PROGRAM_KEYPAIR_PATH env1) = Ok programKeypair1 ->
  createKeypairFromFile env2 (PROGRAM_KEYPAIR_PATH env2) = Ok programKeypair2 ->
  publicKey payer1 = publicKey payer2 ->
  publicKey programKeypair1 = publicKey programKeypair2 ->
  fst (checkProgram env1 size1 w1) = Ok tt ->
  fst (checkProgram env2 size2 w2) = Ok tt ->
  (forall base seed programId_,
      PublicKeys.createWithSeed base seed programId_ = Ok (derive base seed programId_))
  /\ agreementPubkey (session (snd (checkProgram env1 size1 w1)))
     = Some (derive (publicKey payer1) (AGREEMENT_SEED ownerKey tenantKey)
                    (publicKey programKeypair1))
  /\ agreementPubkey (session (snd (checkProgram env1 size1 w1)))
     = agreementPubkey (session (snd (checkProgram env2 size2 w2))).
Proof.
  intros Hp1 Hp2 Hk1 Hk2 Hpayer Hprogram Hok1 Hok2.
  destruct (checkProgram_ok_address env1 size1 w1 Hok1) as (p1 & k1 & Hp1' & Hk1' & _ & Ha1).
  destruct (checkProgram_ok_address env2 size2 w2 Hok2) as (p2 & k2 & Hp2' & Hk2' & _ & Ha2).
  rewrite Hp1 in Hp1'. rewrite Hp2 in Hp2'. rewrite Hk1 in Hk1'. rewrite Hk2 in Hk2'.
  injection Hp1' as <-. injection Hp2' as <-. injection Hk1' as <-. injection Hk2' as <-.
  split; [exact createWithSeed_derive|].
  rewrite Ha1, Ha2. unfold agreement_address.
  rewrite Hpayer, Hprogram. split; reflexivity.
Qed.

(** Two runs for the same payer and program, in different environments,
    sessions and ledgers. *)
Lemma derivation_deterministic_witness :
  (forall base seed programId_,
      PublicKeys.createWithSeed base seed programId_ = Ok (derive base seed programId_))
  /\ agreementPubkey (session (snd (checkProgram demo_env 120 (demo_world false))))
     = Some (derive (publicKey demo_payer) (AGREEMENT_SEED ownerKey tenantKey)
                    (publicKey demo_program))
  /\ agreementPubkey (session (snd (checkProgram demo_env 120 (demo_world false))))
     = agreementPubkey (session (snd (checkProgram demo_env' 119 demo_world'))).
Proof.
  apply (derivation_deterministic demo_env demo_env' 120 119
           (demo_world false) demo_world'
           demo_payer (mkKeypair (publicKey demo_payer) [4; 5; 6])
           demo_program (mkKeypair (publicKey demo_program) [1; 2; 3])).
  - reflexivity.
  - reflexivity.
  - reflexivity.
  - reflexivity.
  - reflexivity.
  - reflexivity.
  - vm_compute. reflexivity.
  - vm_compute. reflexivity.
Defined.

(** ** C9: the escrow position holds the agreement address *)

Lemma skipn_app_length {A} (n : nat) (l r : list A) :
  List.length l = n -> skipn n (l ++ r) = r.
Proof.
  intros <-. rewrite skipn_app, skipn_all, Nat.sub_diag. reflexivity.
Qed.

Lemma firstn_app_length {A} (n : nat) (l r : list A) :
  List.length l = n -> firstn n (l ++ r) = l.
Proof.
  intros <-. rewrite firstn_app, firstn_all, Nat.sub_diag. cbn [firstn].
  apply app_nil_r.
Qed.

(** Relative to the session: the escrow slot and the third identity of the
    data are the session's agreement address. *)
Lemma initContract_escrow
        (w : World) (tx : Transaction) (signers : list Keypair) :
  In (tx, signers) (submissions (events_of initContract w)) ->
  exists agreement keys programId_ data,
    agreementPubkey (session w) = Some agreement
    /\ tx = [Instruction keys programId_ data]
    /\ nth_error keys 1 = Some (mkAccountMeta agreement false true)
    /\ firstn 32 (skipn 65 data) = PublicKeys.toBytes agreement.
Proof.
  destruct (initContract_submits w) as (evs & Htrace & Hsub).
  rewrite (events_of_eq _ _ _ Htrace).
  destruct Hsub as [-> | (agreement & owner & tenant & pid & p & data
                          & Hag & _ & _ & _ & _ & Hdata & ->)]; intros Hin.
  - destruct Hin.
  - destruct Hin as [Heq | []]. injection Heq as <- <-.
    exists agreement. do 3 eexists.
    split; [exact Hag|]. split; [reflexivity|]. split; [reflexivity|].
    rewrite initContract_data_eq in Hdata.
    apply (f_equal (fun r => match r with Ok d => d | Throw _ => [] end)) in Hdata.
    cbv beta iota in Hdata. rewrite <- Hdata.
    change (skipn 65 (0 :: ?l)) with (skipn 64 l).
    rewrite app_assoc.
    rewrite skipn_app_length
      by (rewrite length_app; unfold PublicKeys.toBytes, PublicKeys.toBuffer;
          now rewrite !be_bytes_length).
    apply firstn_app_length.
    unfold PublicKeys.toBytes, PublicKeys.toBuffer. apply be_bytes_length.
Qed.

(** C9.  Every transaction submitted by [initContract] is one instruction
    whose second account, the escrow slot, is the session's agreement
    address, and whose data carries the 32 bytes of that same address as the
    third identity, at offset 65; and when the session is the one a
    successful [checkProgram] left, that address is the one derived from the
    payer, the seed and the program. *)
Theorem initContract_escrow_is_agreement
        (w : World) (tx : Transaction) (signers : list Keypair) :
  In (tx, signers) (submissions (events_of initContract w)) ->
  exists agreement keys programId_ data,
    agreementPubkey (session w) = Some agreement
    /\ tx = [Instruction keys programId_ data]
    /\ nth_error keys 1 = Some (mkAccountMeta agreement false true)
    /\ firstn 32 (skipn 65 data) = PublicKeys.toBytes agreement
    /\ forall env size w0,
         w = snd (checkProgram env size w0) ->
         fst (checkProgram env size w0) = Ok tt ->
         exists payer_ programKeypair,
           payer (session w0) = Some payer_
           /\ createKeypairFromFile env (PROGRAM_KEYPAIR_PATH env) = Ok programKeypair
           /\ agreement = derive (publicKey payer_) (AGREEMENT_SEED ownerKey tenantKey)
                                 (publicKey programKeypair).
Proof.
  intros Hin.
  destruct (initContract_escrow w tx signers Hin)
    as (agreement & keys & pid & data & Hag & Htx & Hkey & Hdata).
  exists agreement, keys, pid, data.
  do 4 (split; [assumption|]).
  intros env size w0 -> Hok.
  destruct (checkProgram_ok_address env size w0 Hok) as (p & kp & Hp & Hkp & _ & Hag').
  exists p, kp. split; [exact Hp|]. split; [exact Hkp|].
  rewrite Hag' in Hag. injection Hag as <-. reflexivity.
Qed.

(** The instruction submitted after [checkProgram] on the sample deployment. *)
Lemma initContract_escrow_is_agreement_witness :
  exists agreement keys programId_ data,
    agreementPubkey (session demo_initialized) = Some agreement
    /\ fst demo_submission = [Instruction keys programId_ data]
    /\ nth_error keys 1 = Some (mkAccountMeta agreement false true)
    /\ firstn 32 (skipn 65 data) = PublicKeys.toBytes agreement
    /\ forall env size w0,
         demo_initialized = snd (checkProgram env size w0) ->
         fst (checkProgram env size w0) = Ok tt ->
         exists payer_ programKeypair,
           payer (session w0) = Some payer_
           /\ createKeypairFromFile env (PROGRAM_KEYPAIR_PATH env) = Ok programKeypair
           /\ agreement = derive (publicKey payer_) (AGREEMENT_SEED ownerKey tenantKey)
                                 (publicKey programKeypair).
Proof.
  apply (initContract_escrow_is_agreement demo_initialized
           (fst demo_submission) (snd demo_submission)).
  vm_compute. left. reflexivity.
Defined.

(** ** Base 58: the text of a key determines the key *)

Lemma digit_char_inv (d : Z) :
  0 <= d < 58 -> Base58.char_digit (Base58.digit_char d) = Some d.
Proof.
  intros Hd. rewrite <- (Z2Nat.id d) by lia.
  assert (Hn : (Z.to_nat d < 58)%nat) by lia.
  revert Hn. generalize (Z.to_nat d). clear d Hd. intros n Hn.
  do 58 (destruct n as [|n]; [reflexivity|]). lia.
Qed.

Lemma digit_char_inj (d1 d2 : Z) :
  0 <= d1 < 58 -> 0 <= d2 < 58 ->
  Base58.digit_char d1 = Base58.digit_char d2 -> d1 = d2.
Proof.
  intros H1 H2 Heq.
  pose proof (digit_char_inv d1 H1) as E1. rewrite Heq, digit_char_inv in E1 by exact H2.
  congruence.
Qed.

Lemma map_digit_char_inj (ds1 ds2 : list Z) :
  Forall is_digit58 ds1 -> Forall is_digit58 ds2 ->
  map Base58.digit_char ds1 = map Base58.digit_char ds2 -> ds1 = ds2.
Proof.
  intros H1. revert ds2. induction H1 as [|d1 ds1 Hd1 _ IH]; intros ds2 H2 Heq.
  - destruct ds2; [reflexivity | discriminate].
  - destruct H2 as [|d2 ds2 Hd2 H2]; [discriminate|].
    cbn [map] in Heq. injection Heq as Hd Hrest.
    f_equal; [now apply digit_char_inj | now apply IH].
Qed.

Lemma digits_le_range (fuel : nat) (n : Z) :
  Forall is_digit58 (Base58.digits_le fuel n).
Proof.
  revert n; induction fuel as [|f IH]; intros n; cbn [Base58.digits_le].
  - constructor.
  - destruct (n <=? 0); constructor; [|apply IH].
    unfold is_digit58. apply Z.mod_pos_bound. lia.
Qed.

Lemma digits_le_value (fuel : nat) (n : Z) :
  0 <= n < 58 ^ Z.of_nat fuel -> Base58.value_le (Base58.digits_le fuel n) = n.
Proof.
  revert n; induction fuel as [|f IH]; intros n Hn; cbn [Base58.digits_le].
  - simpl in Hn. cbn [Base58.value_le]. lia.
  - destruct (Z.leb_spec n 0); cbn [Base58.value_le]; [lia|].
    rewrite IH.
    + pose proof (Z.div_mod n 58). lia.
    + replace (Z.of_nat (S f)) with (Z.succ (Z.of_nat f)) in Hn by lia.
      rewrite Z.pow_succ_r in Hn by lia.
      split; [apply Z.div_pos; lia | apply Z.div_lt_upper_bound; lia].
Qed.

(** The most significant digit is not zero. *)
Lemma digits_le_last (fuel : nat) (n : Z) :
  0 <= n < 58 ^ Z.of_nat fuel -> last (Base58.digits_le fuel n) 1 <> 0.
Proof.
  revert n; induction fuel as [|f IH]; intros n Hn; cbn [Base58.digits_le].
  - cbn [last]. lia.
  - destruct (Z.leb_spec n 0); [cbn [last]; lia|].
    replace (Z.of_nat (S f)) with (Z.succ (Z.of_nat f)) in Hn by lia.
    rewrite Z.pow_succ_r in Hn by lia.
    assert (Hq : 0 <= n / 58 < 58 ^ Z.of_nat f)
      by (split; [apply Z.div_pos; lia | apply Z.div_lt_upper_bound; lia]).
    specialize (IH (n / 58) Hq).
    destruct (Base58.digits_le f (n / 58)) as [|d ds] eqn:Hds.
    + cbn [last].
      assert (Hzero : n / 58 = 0).
      { pose proof (digits_le_value f (n / 58) Hq) as Hv.
        rewrite Hds in Hv. cbn [Base58.value_le] in Hv. lia. }
      pose proof (Z.div_mod n 58). lia.
    + exact IH.
Qed.

Lemma no_leader_app (cs ds : list ascii) :
  cs <> [] -> no_leader cs -> no_leader (cs ++ ds).
Proof. destruct cs; [congruence | intros _ H; exact H]. Qed.

Lemma digit_text_no_leader (ds : list Z) :
  Forall is_digit58 ds -> last ds 1 <> 0 ->
  no_leader (map Base58.digit_char (rev ds)).
Proof.
  induction 1 as [|d ds Hd Hds IH]; intros Hlast; [exact I|].
  cbn [rev]. rewrite map_app. destruct ds as [|d' ds'].
  - cbn [last] in Hlast. cbn. intros Heq. apply Hlast.
    apply (digit_char_inj d 0 Hd); [unfold is_digit58; lia | exact Heq].
  - apply no_leader_app.
    + cbn [rev]. rewrite map_app. intros Hnil.
      apply app_eq_nil in Hnil. destruct Hnil as [_ Hnil]. discriminate Hnil.
    + apply IH. exact Hlast.
Qed.

Lemma leaders_app_inj (a b : nat) (cs ds : list ascii) :
  no_leader cs -> no_leader ds ->
  (repeat Base58.LEADER a ++ cs = repeat Base58.LEADER b ++ ds)%list ->
  cs = ds.
Proof.
  revert b; induction a as [|a IH]; intros b Hcs Hds Heq.
  - destruct b as [|b]; [exact Heq|].
    cbn in Heq. subst cs. cbn in Hcs. congruence.
  - destruct b as [|b].
    + cbn in Heq. subst ds. cbn in Hds. congruence.
    + cbn [repeat app] in Heq. injection Heq as Heq. now apply (IH b).
Qed.

Lemma toBase58_inj (k1 k2 : PublicKey) :
  PublicKeys.valid k1 -> PublicKeys.valid k2 ->
  PublicKeys.toBase58 k1 = PublicKeys.toBase58 k2 -> k1 = k2.
Proof.
  destruct k1 as [n1], k2 as [n2]. unfold PublicKeys.valid. cbn [_bn].
  intros H1 H2 Heq.
  unfold PublicKeys.toBase58, Base58.encode in Heq.
  apply (f_equal list_ascii_of_string) in Heq.
  rewrite !list_ascii_of_string_of_list_ascii in Heq.
  unfold Base58.encode_chars, PublicKeys.toBytes, PublicKeys.toBuffer in Heq.
  cbn [_bn] in Heq. rewrite !be_bytes_length in Heq.
  change (2 ^ 256) with (256 ^ Z.of_nat 32) in H1, H2.
  rewrite !be_value_be_bytes in Heq by assumption.
  assert (Hfuel : forall n, 0 <= n < 256 ^ Z.of_nat 32 ->
                            0 <= n < 58 ^ Z.of_nat (2 * 32)).
  { intros n Hn. split; [lia|].
    apply Z.lt_trans with (256 ^ Z.of_nat 32); [lia | reflexivity]. }
  apply leaders_app_inj in Heq;
    try (apply digit_text_no_leader;
         [apply digits_le_range | apply digits_le_last; now apply Hfuel]).
  apply map_digit_char_inj in Heq;
    try (apply Forall_rev, digits_le_range).
  apply (f_equal (@rev Z)) in Heq. rewrite !rev_involutive in Heq.
  apply (f_equal Base58.value_le) in Heq.
  rewrite !digits_le_value in Heq by now apply Hfuel.
  now subst.
Qed.

(** ** Seed strings and hashed bytes *)

Lemma list_ascii_of_string_app (s1 s2 : string) :
  list_ascii_of_string (s1 ++ s2)
  = (list_ascii_of_string s1 ++ list_ascii_of_string s2)%list.
Proof. induction s1 as [|c s1 IH]; cbn; [reflexivity | now rewrite IH]. Qed.

Lemma list_ascii_of_string_inj (s1 s2 : string) :
  list_ascii_of_string s1 = list_ascii_of_string s2 -> s1 = s2.
Proof.
  intros H. apply (f_equal string_of_list_ascii) in H.
  now rewrite !string_of_list_ascii_of_string in H.
Qed.

Lemma list_ascii_of_string_length (s : string) :
  List.length (list_ascii_of_string s) = String.length s.
Proof. induction s as [|c s IH]; cbn; [reflexivity | now rewrite IH]. Qed.

Lemma app_inj_length {A} (l1 l2 r1 r2 : list A) :
  List.length l1 = List.length l2 ->
  (l1 ++ r1 = l2 ++ r2)%list -> l1 = l2 /\ r1 = r2.
Proof.
  revert l2; induction l1 as [|x l1 IH]; intros [|y l2] Hlen Heq;
    try discriminate Hlen.
  - split; [reflexivity | exact Heq].
  - cbn in Heq. injection Heq as -> Heq. injection Hlen as Hlen.
    destruct (IH l2 Hlen Heq) as [-> ->]. split; reflexivity.
Qed.

Lemma of_string_inj (s1 s2 : string) :
  Bytes.of_string s1 = Bytes.of_string s2 -> s1 = s2.
Proof.
  unfold Bytes.of_string. intros H. apply list_ascii_of_string_inj.
  revert H. generalize (list_ascii_of_string s1) (list_ascii_of_string s2).
  induction l as [|c l IH]; intros [|c' l'] H; try discriminate H; [reflexivity|].
  cbn [map] in H. injection H as Hc Hl. f_equal; [|now apply IH].
  apply Nat2Z.inj in Hc. apply (f_equal ascii_of_nat) in Hc.
  now rewrite !ascii_nat_embedding in Hc.
Qed.

Lemma toBuffer_inj (k1 k2 : PublicKey) :
  PublicKeys.valid k1 -> PublicKeys.valid k2 ->
  PublicKeys.toBuffer k1 = PublicKeys.toBuffer k2 -> k1 = k2.
Proof.
  destruct k1 as [n1], k2 as [n2]. unfold PublicKeys.valid, PublicKeys.toBuffer.
  cbn [_bn]. change (2 ^ 256) with (256 ^ Z.of_nat 32). intros H1 H2 Heq.
  apply (f_equal Bytes.be_value) in Heq.
  rewrite !be_value_be_bytes in Heq by assumption. now subst.
Qed.

(** The bytes hashed for two seeds differ when the seeds do. *)
Lemma seed_preimage_seed_inj (base programId_ : PublicKey) (seed1 seed2 : string) :
  PublicKeys.seed_preimage base seed1 programId_
  = PublicKeys.seed_preimage base seed2 programId_ -> seed1 = seed2.
Proof.
  unfold PublicKeys.seed_preimage. intros H.
  apply app_inv_head, app_inv_tail in H. now apply of_string_inj.
Qed.

(** The bytes hashed for two payers differ when the payers do: the derived
    address depends on the payer through the first 32 bytes of the input of
    the hash. *)
Lemma seed_preimage_base_inj (base1 base2 programId_ : PublicKey) (seed : string) :
  PublicKeys.valid base1 -> PublicKeys.valid base2 ->
  PublicKeys.seed_preimage base1 seed programId_
  = PublicKeys.seed_preimage base2 seed programId_ -> base1 = base2.
Proof.
  unfold PublicKeys.seed_preimage. intros H1 H2 H.
  apply app_inv_tail in H. now apply toBuffer_inj.
Qed.

Lemma AGREEMENT_SEED_inj (o1 t1 o2 t2 : PublicKey) :
  PublicKeys.valid o1 -> PublicKeys.valid t1 ->
  PublicKeys.valid o2 -> PublicKeys.valid t2 ->
  String.length (PublicKeys.toString o1) = String.length (PublicKeys.toString o2) ->
  AGREEMENT_SEED o1 t1 = AGREEMENT_SEED o2 t2 -> o1 = o2 /\ t1 = t2.
Proof.
  intros Ho1 Ht1 Ho2 Ht2 Hlen Heq. unfold AGREEMENT_SEED in Heq.
  apply (f_equal list_ascii_of_string) in Heq.
  rewrite !list_ascii_of_string_app in Heq.
  apply app_inv_head in Heq.
  apply app_inj_length in Heq;
    [|now rewrite !list_ascii_of_string_length].
  destruct Heq as [Ho Ht].
  apply list_ascii_of_string_inj in Ho, Ht.
  split; now apply toBase58_inj.
Qed.

(** ** The payer in the derivation *)

Lemma le_bytes_le_value (bs : list Z) :
  Forall is_byte bs -> Bytes.le_bytes (List.length bs) (Bytes.le_value bs) = bs.
Proof.
  induction 1 as [|b bs Hb _ IH]; [reflexivity|].
  cbn [List.length Bytes.le_value Bytes.le_bytes]. unfold is_byte in Hb.
  rewrite <- (Z.mod_unique (b + 256 * Bytes.le_value bs) 256 (Bytes.le_value bs) b)
    by lia.
  rewrite <- (Z.div_unique (b + 256 * Bytes.le_value bs) 256 (Bytes.le_value bs) b)
    by lia.
  now rewrite IH.
Qed.

Lemma be_value_inj (bs1 bs2 : list Z) :
  Forall is_byte bs1 -> Forall is_byte bs2 ->
  List.length bs1 = List.length bs2 ->
  Bytes.be_value bs1 = Bytes.be_value bs2 -> bs1 = bs2.
Proof.
  unfold Bytes.be_value. intros H1 H2 Hlen Heq.
  apply Forall_rev in H1, H2.
  apply le_bytes_le_value in H1, H2.
  rewrite <- (rev_involutive bs1), <- (rev_involutive bs2), <- H1, <- H2.
  now rewrite !length_rev, Hlen, Heq.
Qed.

(** Two derivations give the same address only when the digests of their
    inputs are equal. *)
Lemma derive_eq_digest (base1 base2 programId1 programId2 : PublicKey)
      (seed1 seed2 : string) :
  derive base1 seed1 programId1 = derive base2 seed2 programId2 ->
  Sha256.sha256 (PublicKeys.seed_preimage base1 seed1 programId1)
  = Sha256.sha256 (PublicKeys.seed_preimage base2 seed2 programId2).
Proof.
  unfold derive. intros H. apply (f_equal _bn) in H. cbn [_bn] in H.
  apply be_value_inj; try apply sha256_bytes; [|exact H].
  now rewrite !sha256_length.
Qed.

(** For one agreement and one program, two payers are given the same address
    only by a collision of SHA-256: two different inputs with one digest. *)
Lemma derive_payer_collision (payer1 payer2 programId_ : PublicKey) (seed : string) :
  PublicKeys.valid payer1 -> PublicKeys.valid payer2 -> payer1 <> payer2 ->
  derive payer1 seed programId_ = derive payer2 seed programId_ ->
  exists m1 m2, m1 <> m2 /\ Sha256.sha256 m1 = Sha256.sha256 m2.
Proof.
  intros H1 H2 Hneq Heq.
  exists (PublicKeys.seed_preimage payer1 seed programId_),
         (PublicKeys.seed_preimage payer2 seed programId_).
  split; [|now apply derive_eq_digest].
  intros Hpre. apply Hneq. now apply (seed_preimage_base_inj _ _ programId_ seed).
Qed.

(** The sample payer and another one are given different addresses. *)
Example derive_depends_on_payer :
  derive (publicKey demo_payer) (AGREEMENT_SEED ownerKey tenantKey) (publicKey demo_program)
  <> derive (mkPublicKey 8) (AGREEMENT_SEED ownerKey tenantKey) (publicKey demo_program).
Proof. vm_compute. discriminate. Qed.

(** ** C4: seeds of distinct pairs *)

(** C4 (counterexample).  Two distinct pairs of valid identities have the
    same seed string, hence the same derived address for any payer and
    program: the owner's text of one pair is the other's plus one character,
    which the tenant's text gives back. *)
Lemma AGREEMENT_SEED_collision :
  PublicKeys.valid pair1_owner /\ PublicKeys.valid pair1_tenant
  /\ PublicKeys.valid pair2_owner /\ PublicKeys.valid pair2_tenant
  /\ (pair1_owner, pair1_tenant) <> (pair2_owner, pair2_tenant)
  /\ AGREEMENT_SEED pair1_owner pair1_tenant = AGREEMENT_SEED pair2_owner pair2_tenant
  /\ PublicKeys.createWithSeed (publicKey demo_payer)
       (AGREEMENT_SEED pair1_owner pair1_tenant) (publicKey demo_program)
     = PublicKeys.createWithSeed (publicKey demo_payer)
         (AGREEMENT_SEED pair2_owner pair2_tenant) (publicKey demo_program).
Proof.
  assert (Hseed : AGREEMENT_SEED pair1_owner pair1_tenant
                  = AGREEMENT_SEED pair2_owner pair2_tenant)
    by (vm_compute; reflexivity).
  assert (Hvalid : forall n, (0 <=? n) && (n <? 2 ^ 256) = true ->
                             PublicKeys.valid (mkPublicKey n)).
  { intros n Hn. apply andb_true_iff in Hn. unfold PublicKeys.valid. cbn [_bn]. lia. }
  do 4 (split; [apply Hvalid; vm_compute; reflexivity|]).
  split; [|split; [exact Hseed | now rewrite Hseed]].
  intros H. apply (f_equal (fun p => _bn (fst p) =? 2 ^ 249)) in H.
  vm_compute in H. discriminate H.
Qed.

(** C4 (amended).  For two distinct pairs of valid identities whose owner
    texts have the same length, the seed strings differ, and so do the bytes
    hashed into the derived address, whatever the payer and the program. *)
Theorem AGREEMENT_SEED_distinct (o1 t1 o2 t2 : PublicKey) :
  PublicKeys.valid o1 -> PublicKeys.valid t1 ->
  PublicKeys.valid o2 -> PublicKeys.valid t2 ->
  String.length (PublicKeys.toString o1) = String.length (PublicKeys.toString o2) ->
  (o1, t1) <> (o2, t2) ->
  AGREEMENT_SEED o1 t1 <> AGREEMENT_SEED o2 t2
  /\ forall base programId_,
       PublicKeys.seed_preimage base (AGREEMENT_SEED o1 t1) programId_
       <> PublicKeys.seed_preimage base (AGREEMENT_SEED o2 t2) programId_.
Proof.
  intros Ho1 Ht1 Ho2 Ht2 Hlen Hneq.
  assert (Hseed : AGREEMENT_SEED o1 t1 <> AGREEMENT_SEED o2 t2).
  { intros Heq. apply Hneq.
    destruct (AGREEMENT_SEED_inj o1 t1 o2 t2 Ho1 Ht1 Ho2 Ht2 Hlen Heq) as [-> ->].
    reflexivity. }
  split; [exact Hseed|].
  intros base programId_ Heq. apply Hseed.
  now apply (seed_preimage_seed_inj base programId_).
Qed.

(** The client's owner and tenant, and the same two keys exchanged. *)
Lemma AGREEMENT_SEED_distinct_witness :
  AGREEMENT_SEED ownerKey tenantKey <> AGREEMENT_SEED tenantKey ownerKey
  /\ forall base programId_,
       PublicKeys.seed_preimage base (AGREEMENT_SEED ownerKey tenantKey) programId_
       <> PublicKeys.seed_preimage base (AGREEMENT_SEED tenantKey ownerKey) programId_.
Proof.
  apply (AGREEMENT_SEED_distinct ownerKey tenantKey tenantKey ownerKey).
  - vm_compute. split; [discriminate | reflexivity].
  - vm_compute. split; [discriminate | reflexivity].
  - vm_compute. split; [discriminate | reflexivity].
  - vm_compute. split; [discriminate | reflexivity].
  - vm_compute. reflexivity.
  - vm_compute. discriminate.
Defined.

(** ** C2, C3: the account schema *)

(** Every account with public keys in its identity fields is refused by the
    encoder: the schema sends them to the string writer. *)
Lemma encode_valid_account (a : AgreementAccount) :
  valid_account a -> is_TypeError (encode a).
Proof.
  intros (_ & (k & Hk & _) & _).
  unfold is_TypeError, encode, Borsh.serialize, AgreementSchema.
  cbn [Borsh.serializeStruct].
  change (AgreementAccount_get a "pub status") with JUndefined.
  change (AgreementAccount_get a "owner_pubkey") with (owner_pubkey a).
  rewrite Hk. cbn. eexists. reflexivity.
Qed.

(** C2 (as the code behaves).  The encoding has no fixed length.  The
    zero-valued instance from which the module computes [AGREEMENT_SIZE], and
    the account [typed_account], are not encoded at all: the schema declares
    the three identities as strings and the string writer refuses a
    [PublicKey] object.  With the identities given as text the encoding is
    35 bytes plus the three texts, 131 bytes for three zero keys and 155
    bytes for the client's owner and tenant. *)
Theorem encode_length_varies :
  is_TypeError (encode (new_AgreementAccount None))
  /\ is_TypeError AGREEMENT_SIZE
  /\ is_TypeError (encode typed_account)
  /\ (exists b1 b2,
        encode (text_account 0 (PublicKeys.toString PublicKey_zero)
                  (PublicKeys.toString PublicKey_zero)
                  (PublicKeys.toString PublicKey_zero)) = Some (Ok b1)
        /\ encode (text_account 0 OWNER TENANT
                     (PublicKeys.toString PublicKey_zero)) = Some (Ok b2)
        /\ List.length b1 = 131%nat
        /\ List.length b2 = 155%nat).
Proof.
  split; [eexists; vm_compute; reflexivity|].
  split; [eexists; vm_compute; reflexivity|].
  split; [eexists; vm_compute; reflexivity|].
  eexists. eexists.
  split; [vm_compute; reflexivity|].
  split; [vm_compute; reflexivity|].
  split; vm_compute; reflexivity.
Qed.

(** C3 (as the code behaves).  Decoding does not give back what was encoded.
    An account with public keys is not encoded at all.  With the identities
    given as text, the schema's first field is named ["pub status"], which no
    account has: the encoder writes 0 for it whatever the status is, and the
    decoded account has no status; the two amounts come back as [BN]
    objects. *)
Theorem decode_encode_loses_status :
  is_TypeError (encode typed_account)
  /\ (exists buffer,
        encode (text_account 1 OWNER TENANT OWNER) = Some (Ok buffer)
        /\ nth_error buffer 0 = Some 0
        /\ decode buffer
           = Ok (mkAgreementAccount JUndefined (JString OWNER) (JString TENANT)
                   (JString OWNER) (JBN 1000) (JBN 500) (JNumber 11) (JNumber 11)
                   (JNumber 1) (JNumber 2022) (JNumber 0))
        /\ decode buffer <> Ok (text_account 1 OWNER TENANT OWNER)).
Proof.
  split; [eexists; vm_compute; reflexivity|].
  eexists.
  split; [vm_compute; reflexivity|].
  split; [vm_compute; reflexivity|].
  split; [vm_compute; reflexivity|].
  vm_compute. discriminate.
Qed.

(** ** C6: what the decoder accepts *)




















(** Whatever the canonical size is taken to be, some buffer of another
    length is decoded. *)
Lemma decode_accepts_other_lengths (canonical : nat) :
  exists buffer account,
    List.length buffer <> canonical /\ decode buffer = Ok account.
Proof.
  destruct (Nat.eq_dec canonical 35) as [->|Hne].
  - exists ([0; 3; 0; 0; 0; 97; 98; 99] ++ repeat 0 30%nat)%list. eexists.
    split; [vm_compute; discriminate | vm_compute; reflexivity].
  - exists (repeat 0 35%nat). eexists.
    split; [rewrite repeat_length; congruence | vm_compute; reflexivity].
Qed.

(** * The rest of the client *)

(** ** [establishPayer] *)

Ltac xunfold :=
  cbv [establishPayer fund_payer establishConnection xbind xret xtry_catch base call
       read update rpc_getMinimumBalanceForRentExemption bind emit lift ret
       set_payer set_connection].

Ltac xcbn :=
  cbn [world requests session trace connection payer programId agreementPubkey
       ownerPubkey tenantPubkey escrowPubkey fst snd].







(** X2.  When the payer is already set and its balance is not negative,
    [establishPayer] only reads that balance: it asks neither for the fees
    nor for an airdrop, and leaves the session and the trace as they were. *)
Theorem establishPayer_already_set (cluster : Cluster) (size : Z) (c : Client)
        (conn : Connection) (p : Keypair) (balance : Z) :
  connection (session (world c)) = Some conn ->
  payer (session (world c)) = Some p ->
  getBalance cluster conn (publicKey p) = Ok balance ->
  0 <= balance ->
  establishPayer cluster size c
  = (Ok tt, mkClient (world c) (requests c ++ [GetBalance (publicKey p)])).
Proof.
  destruct c as [[[conn_ payer__ pid ag es ow te] t] rs0]. xcbn.
  intros -> -> Hbal Hpos. xunfold. xcbn. rewrite Hbal.
  destruct (Z.ltb_spec balance 0); [lia | reflexivity].
Qed.

Lemma establishPayer_already_set_witness :
  establishPayer (demo_cluster true 10) 120
    (mkClient (demo_world false) [GetVersion])
  = (Ok tt, mkClient (demo_world false)
                     ([GetVersion] ++ [GetBalance (publicKey demo_payer)])).
Proof.
  apply (establishPayer_already_set (demo_cluster true 10) 120
           (mkClient (demo_world false) [GetVersion])
           (demo_node false) demo_payer 10).
  - reflexivity.
  - reflexivity.
  - reflexivity.
  - lia.
Defined.




(** ** [checkProgram]: failures, result and frame *)

Lemma checkProgram_ok_session (env : Env) (size : Z) (w : World) :
  fst (checkProgram env size w) = Ok tt ->
  exists conn p programKeypair info,
    connection (session w) = Some conn
    /\ payer (session w) = Some p
    /\ createKeypairFromFile env (PROGRAM_KEYPAIR_PATH env) = Ok programKeypair
    /\ getAccountInfo conn (publicKey programKeypair) = Ok (Some info)
    /\ executable info = true
    /\ session (snd (checkProgram env size w))
       = mkSession (Some conn) (Some p) (Some (publicKey programKeypair))
                   (Some (agreement_address p programKeypair))
                   (escrowPubkey (session w)) (Some ownerKey) (Some tenantKey)
    /\ ((exists account,
           getAccountInfo conn (agreement_address p programKeypair) = Ok (Some account))
        \/ (getAccountInfo conn (agreement_address p programKeypair) = Ok None
            /\ exists lamports signature,
                 getMinimumBalanceForRentExemption conn size = Ok lamports
                 /\ sendAndConfirm conn (creation p programKeypair lamports size) [p]
                    = Ok signature)).
Proof.
  destruct w as [[conn_ payer__ pid ag es ow te] t].
  unfold agreement_address, creation. unfold_run.
  repeat run_step.
  all: run_cbn; intros Hok; try discriminate Hok.
  all: match goal with
       | Hk : createKeypairFromFile _ _ = Ok ?a,
         Hp : getAccountInfo ?c (publicKey ?a) = Ok (Some ?i),
         Hx : negb (executable ?i) = false,
         Hq : getAccountInfo ?c (derive (publicKey ?k) _ _) = _ |- _ =>
           exists c, k, a, i;
           do 3 (split; [reflexivity|]);
           split; [exact Hp|];
           split; [now destruct (executable i)|];
           split; [reflexivity|]
       end.
  all: first [ left; eexists; eassumption
             | right; split; [assumption|]; do 2 eexists; split; eassumption ].
Qed.

(** X4.  When [checkProgram] returns, the program's key pair was read, the
    program account exists and is executable, and the agreement account at
    the derived address either exists or was created by a confirmed
    transaction; the session holds the program id, the two participants and
    the derived address, with connection, payer and escrow key untouched. *)
Theorem checkProgram_returns (env : Env) (size : Z) (w : World) :
  fst (checkProgram env size w) = Ok tt ->
  exists conn p programKeypair info,
    connection (session w) = Some conn
    /\ payer (session w) = Some p
    /\ createKeypairFromFile env (PROGRAM_KEYPAIR_PATH env) = Ok programKeypair
    /\ getAccountInfo conn (publicKey programKeypair) = Ok (Some info)
    /\ executable info = true
    /\ session (snd (checkProgram env size w))
       = mkSession (Some conn) (Some p) (Some (publicKey programKeypair))
                   (Some (agreement_address p programKeypair))
                   (escrowPubkey (session w)) (Some ownerKey) (Some tenantKey)
    /\ ((exists account,
           getAccountInfo conn (agreement_address p programKeypair) = Ok (Some account))
        \/ (getAccountInfo conn (agreement_address p programKeypair) = Ok None
            /\ exists lamports signature,
                 getMinimumBalanceForRentExemption conn size = Ok lamports
                 /\ sendAndConfirm conn (creation p programKeypair lamports size) [p]
                    = Ok signature)).
Proof. exact (checkProgram_ok_session env size w). Qed.

(** The sample deployment without the agreement account: it is created. *)
Lemma checkProgram_returns_witness :
  exists conn p programKeypair info,
    connection (session (demo_world false)) = Some conn
    /\ payer (session (demo_world false)) = Some p
    /\ createKeypairFromFile demo_env (PROGRAM_KEYPAIR_PATH demo_env) = Ok programKeypair
    /\ getAccountInfo conn (publicKey programKeypair) = Ok (Some info)
    /\ executable info = true
    /\ session (snd (checkProgram demo_env 120 (demo_world false)))
       = mkSession (Some conn) (Some p) (Some (publicKey programKeypair))
                   (Some (agreement_address p programKeypair))
                   (escrowPubkey (session (demo_world false)))
                   (Some ownerKey) (Some tenantKey)
    /\ ((exists account,
           getAccountInfo conn (agreement_address p programKeypair) = Ok (Some account))
        \/ (getAccountInfo conn (agreement_address p programKeypair) = Ok None
            /\ exists lamports signature,
                 getMinimumBalanceForRentExemption conn 120 = Ok lamports
                 /\ sendAndConfirm conn (creation p programKeypair lamports 120) [p]
                    = Ok signature)).
Proof.
  apply (checkProgram_returns demo_env 120 (demo_world false)).
  vm_compute. reflexivity.
Defined.

(** X5.  When the key pair of the program cannot be read, or the program
    account is missing or not executable, [checkProgram] throws an [Error],
    having made at most one request, the query of the program account; it
    submits nothing and leaves the participants and the agreement address of
    the session as they were. *)
Theorem checkProgram_not_deployed (env : Env) (size : Z) (w : World) (conn : Connection) :
  connection (session w) = Some conn ->
  (exists e, createKeypairFromFile env (PROGRAM_KEYPAIR_PATH env) = Throw e)
  \/ (exists programKeypair,
        createKeypairFromFile env (PROGRAM_KEYPAIR_PATH env) = Ok programKeypair
        /\ (getAccountInfo conn (publicKey programKeypair) = Ok None
            \/ exists info,
                 getAccountInfo conn (publicKey programKeypair) = Ok (Some info)
                 /\ executable info = false)) ->
  (exists msg, fst (checkProgram env size w) = Throw (Error msg))
  /\ (List.length (events_of (checkProgram env size) w) <= 1)%nat
  /\ submissions (events_of (checkProgram env size) w) = []
  /\ ownerPubkey (session (snd (checkProgram env size w))) = ownerPubkey (session w)
  /\ tenantPubkey (session (snd (checkProgram env size w))) = tenantPubkey (session w)
  /\ agreementPubkey (session (snd (checkProgram env size w)))
     = agreementPubkey (session w).
Proof.
  destruct w as [[conn_ payer__ pid ag es ow te] t]. run_cbn.
  intros -> Hcase.
  assert (Hrun : exists msg evs,
             checkProgram env size
               (mkWorld (mkSession (Some conn) payer__ pid ag es ow te) t)
             = (Throw (Error msg),
                mkWorld (mkSession (Some conn) payer__
                           (match createKeypairFromFile env (PROGRAM_KEYPAIR_PATH env) with
                            | Ok kp => Some (publicKey kp)
                            | Throw _ => pid
                            end) ag es ow te) (t ++ evs))
             /\ (List.length evs <= 1)%nat /\ submissions evs = []).
  { unfold_run.
    destruct Hcase as [(e & ->) | (kp & -> & [Hnone | (info & Hinfo & Hexec)])].
    - run_cbn. eexists. exists []. rewrite app_nil_r.
      split; [reflexivity|]. split; [simpl; lia | reflexivity].
    - run_cbn. rewrite Hnone.
      destruct (existsSync env (PROGRAM_SO_PATH env)); run_cbn;
        eexists; eexists; (split; [reflexivity|]); split; simpl; (lia || reflexivity).
    - run_cbn. rewrite Hinfo, Hexec. run_cbn.
      eexists. eexists. split; [reflexivity|]. split; [simpl; lia | reflexivity]. }
  destruct Hrun as (msg & evs & Hrun & Hlen & Hsub).
  assert (Htrace : trace (snd (checkProgram env size
             (mkWorld (mkSession (Some conn) payer__ pid ag es ow te) t)))
           = (t ++ evs)%list) by (rewrite Hrun; reflexivity).
  rewrite (events_of_eq _ _ _ Htrace). rewrite Hrun. run_cbn.
  split; [exists msg; reflexivity|]. repeat split; assumption.
Qed.

(** The program account is not known to the node. *)
Lemma checkProgram_not_deployed_witness :
  (exists msg,
      fst (checkProgram demo_env 120 demo_undeployed)
      = Throw (Error msg))
  /\ (List.length (events_of (checkProgram demo_env 120) demo_undeployed) <= 1)%nat
  /\ submissions (events_of (checkProgram demo_env 120) demo_undeployed) = []
  /\ ownerPubkey (session (snd (checkProgram demo_env 120 demo_undeployed))) = None
  /\ tenantPubkey (session (snd (checkProgram demo_env 120 demo_undeployed))) = None
  /\ agreementPubkey (session (snd (checkProgram demo_env 120 demo_undeployed))) = None.
Proof.
  apply (checkProgram_not_deployed demo_env 120 demo_undeployed demo_empty_node).
  - reflexivity.
  - right. exists demo_program. split; [reflexivity|]. left. reflexivity.
Defined.

(** X6.  Whatever happens, [checkProgram] leaves the connection, the payer
    and the escrow key of the session as they were, and [initContract] leaves
    the whole session as it was; both only add to the trace. *)
Theorem session_frame (env : Env) (size : Z) (w : World) :
  (connection (session (snd (checkProgram env size w))) = connection (session w)
   /\ payer (session (snd (checkProgram env size w))) = payer (session w)
   /\ escrowPubkey (session (snd (checkProgram env size w))) = escrowPubkey (session w)
   /\ exists evs, trace (snd (checkProgram env size w)) = (trace w ++ evs)%list)
  /\ (session (snd (initContract w)) = session w
      /\ exists evs, trace (snd (initContract w)) = (trace w ++ evs)%list).
Proof.
  destruct w as [[conn_ payer__ pid ag es ow te] t].
  split.
  - unfold_run. repeat run_step.
    all: run_cbn; do 3 (split; [reflexivity|]).
    all: first [ exists []; now rewrite app_nil_r
               | eexists; rewrite <- ?app_assoc; reflexivity ].
  - unfold_run. repeat run_step.
    all: run_cbn; split; [reflexivity|].
    all: first [ exists []; now rewrite app_nil_r
               | eexists; rewrite <- ?app_assoc; reflexivity ].
Qed.

(** ** [initContract]: the envelope and the missing variables *)

(** The data buffer is built for all identities. *)
Lemma initContract_data_total (owner tenant agreement : PublicKey) :
  exists data, initContract_data owner tenant agreement = Ok data.
Proof. eexists. apply initContract_data_eq. Qed.

(** X7.  With the six variables of the session set, [initContract] submits
    exactly one transaction, signed by the payer alone: one instruction for
    the program in the session, whose accounts are the agreement address
    twice, writable and not signing, and the rent sysvar, read-only; the
    session is unchanged and the result is that of the submission. *)
Theorem initContract_envelope (w : World) (conn : Connection) (p : Keypair)
        (programId_ agreement owner tenant : PublicKey) :
  session w = mkSession (Some conn) (Some p) (Some programId_) (Some agreement)
                        (escrowPubkey (session w)) (Some owner) (Some tenant) ->
  exists data,
    initContract_data owner tenant agreement = Ok data
    /\ initContract w
       = (rmap (fun _ => tt)
            (sendAndConfirm conn
               [Instruction [ mkAccountMeta agreement false true;
                              mkAccountMeta agreement false true;
                              mkAccountMeta SYSVAR_RENT_PUBKEY false false ]
                            programId_ data] [p]),
          mkWorld (session w)
            (trace w
             ++ [Submit [Instruction [ mkAccountMeta agreement false true;
                                       mkAccountMeta agreement false true;
                                       mkAccountMeta SYSVAR_RENT_PUBKEY false false ]
                                     programId_ data] [p]])).
Proof.
  destruct w as [[conn_ payer__ pid ag es ow te] t]. run_cbn.
  intros Hs. injection Hs as -> -> -> -> -> ->.
  destruct (initContract_data_total owner tenant agreement) as (data & Hdata).
  exists data. split; [exact Hdata|].
  unfold_run. run_cbn. rewrite Hdata. run_cbn.
  destruct (sendAndConfirm conn _ _); reflexivity.
Qed.

Lemma initContract_envelope_witness :
  exists data,
    initContract_data ownerKey tenantKey (agreement_address demo_payer demo_program)
    = Ok data
    /\ initContract demo_initialized
       = (rmap (fun _ => tt)
            (sendAndConfirm (demo_node true)
               [Instruction
                  [ mkAccountMeta (agreement_address demo_payer demo_program) false true;
                    mkAccountMeta (agreement_address demo_payer demo_program) false true;
                    mkAccountMeta SYSVAR_RENT_PUBKEY false false ]
                  (publicKey demo_program) data] [demo_payer]),
          mkWorld (session demo_initialized)
            (trace demo_initialized
             ++ [Submit
                   [Instruction
                      [ mkAccountMeta (agreement_address demo_payer demo_program) false true;
                        mkAccountMeta (agreement_address demo_payer demo_program) false true;
                        mkAccountMeta SYSVAR_RENT_PUBKEY false false ]
                      (publicKey demo_program) data] [demo_payer]])).
Proof.
  apply (initContract_envelope demo_initialized (demo_node true) demo_payer
           (publicKey demo_program) (agreement_address demo_payer demo_program)
           ownerKey tenantKey).
  vm_compute. reflexivity.
Defined.



(** ** [establishConnection] and [main] *)








(** ** The account schema: what is written and what is read back *)

(** X11.  The encoder never writes the status: two accounts that differ
    only in their status have the same encoding, or fail alike. *)
Theorem encode_ignores_status (a : AgreementAccount) (s : JSValue) :
  encode (with_status s a) = encode a.
Proof. destruct a. reflexivity. Qed.

Lemma get_set_other (o : JSObject) (n name : string) (v : JSValue) :
  n <> name ->
  get_property (Borsh.set_property o n v) name = get_property o name.
Proof.
  intros Hne. induction o as [|[n' v'] o IH]; cbn [Borsh.set_property get_property].
  - destruct (String.eqb_spec n name); [contradiction | reflexivity].
  - destruct (String.eqb_spec n' n) as [->|Hn]; cbn [get_property].
    + destruct (String.eqb_spec n name); [contradiction | reflexivity].
    + destruct (String.eqb_spec n' name); [reflexivity | exact IH].
Qed.

Lemma deserializeFields_other (fields : Borsh.StructSchema) (acc obj : JSObject)
      (buf rest : list Z) (name : string) :
  ~ In name (map fst fields) ->
  Borsh.deserializeFields fields acc buf = Ok (obj, rest) ->
  get_property obj name = get_property acc name.
Proof.
  revert acc buf; induction fields as [|[n ft] fields IH]; intros acc buf Hnot Hread.
  - cbn in Hread. injection Hread as <- _. reflexivity.
  - cbn [Borsh.deserializeFields] in Hread. unfold rbind in Hread.
    destruct (Borsh.deserializeField ft buf) as [[v rest']|e]; [|discriminate Hread].
    cbn [fst snd] in Hread. cbn [map fst In] in Hnot.
    rewrite (IH _ _ (fun H => Hnot (or_intror H)) Hread).
    apply get_set_other. intros ->. apply Hnot. now left.
Qed.

(** X12.  No buffer decodes to an account with a status: the schema stores
    the first byte under ["pub status"], which the constructor does not
    read. *)
Theorem decode_status_undefined (buffer : list Z) (account : AgreementAccount) :
  decode buffer = Ok account -> status account = JUndefined.
Proof.
  unfold decode, Borsh.deserialize, rbind. intros H.
  destruct (Borsh.deserializeFields AgreementSchema [] buffer) as [[obj rest]|e] eqn:Hd;
    [|discriminate H].
  cbn [fst snd] in H. destruct rest; [|discriminate H]. injection H as <-.
  cbn [new_AgreementAccount status].
  assert (Hnot : ~ In "status"%string (map fst AgreementSchema)).
  { cbn. intros H. repeat (destruct H as [H|H]; [discriminate H|]). exact H. }
  rewrite (deserializeFields_other _ _ _ _ _ _ Hnot Hd). reflexivity.
Qed.

Lemma decode_status_undefined_witness :
  status (mkAgreementAccount JUndefined (JString EmptyString) (JString EmptyString)
            (JString EmptyString) (JBN 0) (JBN 0) (JNumber 0) (JNumber 0) (JNumber 0)
            (JNumber 0) (JNumber 0)) = JUndefined.
Proof.
  apply (decode_status_undefined (7 :: repeat 0 34%nat)).
  vm_compute. reflexivity.
Defined.

(** *** Writers and readers on values in range *)

Lemma writeUInt_in_range (width : nat) (n : Z) :
  0 <= n < 256 ^ Z.of_nat width ->
  Borsh.writeUInt width (JNumber n) = Some (Ok (Bytes.le_bytes width n)).
Proof.
  intros Hn. unfold Borsh.writeUInt.
  destruct (Z.leb_spec 0 n); [|lia].
  destruct (Z.ltb_spec n (256 ^ Z.of_nat width)); [reflexivity | lia].
Qed.

Lemma writeU64_in_range (n : Z) :
  0 <= n < 2 ^ 53 ->
  Borsh.writeU64 (JNumber n) = Some (Ok (Bytes.le_bytes 8 n)).
Proof.
  intros Hn. unfold Borsh.writeU64, BN.of_number, BN.toArray.
  rewrite Z.abs_eq by lia.
  destruct (Z.ltb_spec n (2 ^ 53)); [|lia]. cbn [rbind].
  assert (Hlen : BN.byteLength n <= 8) by (apply byteLength_bound; lia).
  change (8 =? 0) with false. cbv iota.
  destruct (Z.ltb_spec 8 (BN.byteLength n)); [lia|].
  change (8 <=? 0) with false. cbv iota.
  rewrite Z.abs_eq by lia. reflexivity.
Qed.

Lemma readUInt_written (width : nat) (n : Z) (rest : list Z) :
  0 <= n < 256 ^ Z.of_nat width ->
  Borsh.readUInt width (Bytes.le_bytes width n ++ rest) = Ok (n, rest).
Proof.
  intros Hn. unfold Borsh.readUInt.
  destruct (Nat.ltb_spec (List.length (Bytes.le_bytes width n ++ rest)) width) as [Hlt|_].
  - rewrite length_app, le_bytes_length in Hlt. lia.
  - rewrite firstn_app_length, skipn_app_length by apply le_bytes_length.
    now rewrite le_value_le_bytes.
Qed.

Lemma readBuffer_written (bs rest : list Z) :
  Borsh.readBuffer (List.length bs) (bs ++ rest) = Ok (bs, rest).
Proof.
  unfold Borsh.readBuffer.
  destruct (Nat.ltb_spec (List.length (bs ++ rest)) (List.length bs)) as [Hlt|_].
  - rewrite length_app in Hlt. lia.
  - now rewrite firstn_app_length, skipn_app_length.
Qed.

Lemma to_string_of_string (s : string) : Bytes.to_string (Bytes.of_string s) = s.
Proof.
  unfold Bytes.to_string, Bytes.of_string. rewrite map_map.
  rewrite (map_ext _ (fun c => c)), map_id.
  - apply string_of_list_ascii_of_string.
  - intros c. rewrite Nat2Z.id. apply ascii_nat_embedding.
Qed.

Lemma readString_written (s : string) (rest : list Z) :
  plain_text s ->
  Borsh.readString (text_bytes s ++ rest) = Ok (JString s, rest).
Proof.
  intros (Hutf & Hbom & Hlen). unfold Borsh.readString, text_bytes.
  rewrite <- app_assoc, readUInt_written by (change (256 ^ Z.of_nat 4) with (2 ^ 32); lia).
  cbn [rbind fst snd]. rewrite Nat2Z.id, readBuffer_written. cbn [rbind fst snd].
  now rewrite Hutf, Hbom, to_string_of_string.
Qed.

Lemma deserializeField_number (width : nat) (fieldType : Borsh.FieldType)
      (n : Z) (rest : list Z) :
  (fieldType = Borsh.u8 /\ width = 1%nat) \/ (fieldType = Borsh.u16 /\ width = 2%nat) ->
  0 <= n < 256 ^ Z.of_nat width ->
  Borsh.deserializeField fieldType (Bytes.le_bytes width n ++ rest)
  = Ok (JNumber n, rest).
Proof.
  intros [[-> ->] | [-> ->]] Hn; cbn [Borsh.deserializeField];
    unfold Borsh.readU8, Borsh.readU16; now rewrite readUInt_written.
Qed.

Lemma deserializeField_u64 (n : Z) (rest : list Z) :
  0 <= n < 2 ^ 64 ->
  Borsh.deserializeField Borsh.u64 (Bytes.le_bytes 8 n ++ rest) = Ok (JBN n, rest).
Proof.
  intros Hn. cbn [Borsh.deserializeField]. unfold Borsh.readU64.
  pose proof (readBuffer_written (Bytes.le_bytes 8 n) rest) as Hread.
  rewrite le_bytes_length in Hread. rewrite Hread. cbn [rmap rbind fst snd].
  now rewrite le_value_le_bytes.
Qed.

Lemma encode_text_record (status_ : JSValue) (owner tenant escrow : string)
      (deposit rent duration_ remaining month year extension : Z) :
  numbers_in_range deposit rent duration_ remaining month year extension ->
  encode (text_record status_ owner tenant escrow
            deposit rent duration_ remaining month year extension)
  = Some (Ok (text_record_bytes owner tenant escrow
                deposit rent duration_ remaining month year extension)).
Proof.
  intros (Hd & Hr & Hdu & Hre & Hm & Hy & He).
  unfold encode, Borsh.serialize, AgreementSchema, text_record, text_record_bytes.
  cbn [Borsh.serializeStruct].
  repeat match goal with
         | |- context [AgreementAccount_get ?a ?n] =>
             let v := eval cbv in (AgreementAccount_get a n) in
             change (AgreementAccount_get a n) with v
         end.
  cbn [Borsh.serializeField].
  unfold Borsh.writeU8, Borsh.writeU16.
  rewrite !writeU64_in_range by assumption.
  rewrite !(writeUInt_in_range 1) by assumption.
  rewrite (writeUInt_in_range 2) by assumption.
  reflexivity.
Qed.

(** X13.  An account whose identities are texts and whose numbers are in
    range is encoded on 35 bytes plus the UTF-8 lengths of the three
    identities: the size depends on the identities. *)
Theorem encode_text_length (status_ : JSValue) (owner tenant escrow : string)
        (deposit rent duration_ remaining month year extension : Z) :
  numbers_in_range deposit rent duration_ remaining month year extension ->
  exists buffer,
    encode (text_record status_ owner tenant escrow
              deposit rent duration_ remaining month year extension)
    = Some (Ok buffer)
    /\ List.length buffer
       = (35 + List.length (Bytes.of_string owner)
          + List.length (Bytes.of_string tenant)
          + List.length (Bytes.of_string escrow))%nat.
Proof.
  intros Hrange. eexists. split; [now apply encode_text_record|].
  unfold text_record_bytes, text_bytes.
  rewrite !length_app, !le_bytes_length. cbn [List.length]. lia.
Qed.

Lemma encode_text_length_witness :
  exists buffer,
    encode (text_record (JNumber 1) OWNER TENANT "escrow" 1000 500 11 11 1 2022 0)
    = Some (Ok buffer)
    /\ List.length buffer
       = (35 + List.length (Bytes.of_string OWNER)
          + List.length (Bytes.of_string TENANT)
          + List.length (Bytes.of_string "escrow"))%nat.
Proof.
  apply (encode_text_length (JNumber 1) OWNER TENANT "escrow" 1000 500 11 11 1 2022 0).
  unfold numbers_in_range. lia.
Defined.

(** X14.  The round trip as the schema gives it.  For an account whose
    identities are plain texts and whose numbers are in range, decoding the
    encoding returns the identities and the five small numbers as they
    were, the two amounts as [BN] objects of the same value, and no status,
    whatever the status was. *)
Theorem decode_encode_text (status_ : JSValue) (owner tenant escrow : string)
        (deposit rent duration_ remaining month year extension : Z) :
  plain_text owner -> plain_text tenant -> plain_text escrow ->
  numbers_in_range deposit rent duration_ remaining month year extension ->
  exists buffer,
    encode (text_record status_ owner tenant escrow
              deposit rent duration_ remaining month year extension)
    = Some (Ok buffer)
    /\ decode buffer
       = Ok (mkAgreementAccount JUndefined (JString owner) (JString tenant)
               (JString escrow) (JBN deposit) (JBN rent) (JNumber duration_)
               (JNumber remaining) (JNumber month) (JNumber year) (JNumber extension)).
Proof.
  intros Ho Ht He Hrange. eexists. split; [now apply encode_text_record|].
  destruct Hrange as (Hd & Hr & Hdu & Hre & Hm & Hy & Hx).
  unfold decode, Borsh.deserialize, AgreementSchema, text_record_bytes.
  cbn [Borsh.deserializeFields].
  rewrite (deserializeField_number 1 Borsh.u8) by (auto; cbn; lia).
  cbn [rbind fst snd].
  unfold Borsh.deserializeField at 1 2 3.
  rewrite readString_written by assumption. cbn [rbind fst snd].
  rewrite readString_written by assumption. cbn [rbind fst snd].
  rewrite readString_written by assumption. cbn [rbind fst snd].
  rewrite deserializeField_u64 by lia. cbn [rbind fst snd].
  rewrite deserializeField_u64 by lia. cbn [rbind fst snd].
  rewrite (deserializeField_number 1 Borsh.u8) by (auto; cbn; lia). cbn [rbind fst snd].
  rewrite (deserializeField_number 1 Borsh.u8) by (auto; cbn; lia). cbn [rbind fst snd].
  rewrite (deserializeField_number 1 Borsh.u8) by (auto; cbn; lia). cbn [rbind fst snd].
  rewrite (deserializeField_number 2 Borsh.u16) by (auto; cbn; lia). cbn [rbind fst snd].
  rewrite (deserializeField_number 1 Borsh.u8) by (auto; cbn; lia). cbn [rbind fst snd].
  reflexivity.
Qed.

Lemma decode_encode_text_witness :
  exists buffer,
    encode (text_record (JNumber 1) OWNER TENANT "escrow" 1000 500 11 11 1 2022 0)
    = Some (Ok buffer)
    /\ decode buffer
       = Ok (mkAgreementAccount JUndefined (JString OWNER) (JString TENANT)
               (JString "escrow") (JBN 1000) (JBN 500) (JNumber 11)
               (JNumber 11) (JNumber 1) (JNumber 2022) (JNumber 0)).
Proof.
  apply (decode_encode_text (JNumber 1) OWNER TENANT "escrow" 1000 500 11 11 1 2022 0).
  - vm_compute. repeat split.
  - vm_compute. repeat split.
  - vm_compute. repeat split.
  - unfold numbers_in_range. lia.
Defined.

(** X15.  An account as the class declares it, with numbers and public
    keys, is never encoded: the encoder throws a [TypeError] at the owner's
    key. *)
Theorem encode_declared_types (a : AgreementAccount) :
  valid_account a -> is_TypeError (encode a).
Proof. exact (encode_valid_account a). Qed.

Lemma typed_account_valid : valid_account typed_account.
Proof.
  assert (Hkey : forall n, (0 <=? n) && (n <? 2 ^ 256) = true ->
                           is_key (JPublicKey (mkPublicKey n))).
  { intros n Hn. apply andb_true_iff in Hn. exists (mkPublicKey n).
    split; [reflexivity|]. unfold PublicKeys.valid. cbn [_bn]. lia. }
  assert (Hnum : forall w n, (0 <=? n) && (n <? 256 ^ Z.of_nat w) = true ->
                             is_number w (JNumber n)).
  { intros w n Hn. apply andb_true_iff in Hn. exists n. split; [reflexivity | lia]. }
  unfold valid_account, typed_account.
  cbn [status owner_pubkey tenant_pubkey security_escrow_pubkey security_deposit
       rent_amount duration remaining_payments start_month start_year
       duration_extension_request].
  split; [apply Hnum; reflexivity|].
  split; [apply Hkey; vm_compute; reflexivity|].
  split; [apply Hkey; vm_compute; reflexivity|].
  split; [apply Hkey; vm_compute; reflexivity|].
  split; [exists 1000; split; [reflexivity | lia]|].
  split; [exists 500; split; [reflexivity | lia]|].
  split; [apply Hnum; reflexivity|].
  split; [apply Hnum; reflexivity|].
  split; [apply Hnum; reflexivity|].
  split; apply Hnum; reflexivity.
Defined.

(** The client's owner and tenant in an account. *)
Lemma encode_declared_types_witness : is_TypeError (encode typed_account).
Proof.
  apply (encode_declared_types typed_account). exact typed_account_valid.
Defined.

(** ** The bytes hashed into a derived address *)

Lemma app_inj_tail_length {A} (l1 l2 r1 r2 : list A) :
  List.length r1 = List.length r2 ->
  (l1 ++ r1 = l2 ++ r2)%list -> l1 = l2 /\ r1 = r2.
Proof.
  intros Hlen Heq. apply (f_equal (@rev A)) in Heq. rewrite !rev_app_distr in Heq.
  apply app_inj_length in Heq; [|now rewrite !length_rev].
  destruct Heq as [Hr Hl].
  apply (f_equal (@rev A)) in Hr, Hl. rewrite !rev_involutive in Hr, Hl.
  now split.
Qed.

Lemma seed_preimage_determines (base1 base2 programId1 programId2 : PublicKey)
      (seed1 seed2 : string) :
  PublicKeys.valid base1 -> PublicKeys.valid base2 ->
  PublicKeys.valid programId1 -> PublicKeys.valid programId2 ->
  PublicKeys.seed_preimage base1 seed1 programId1
  = PublicKeys.seed_preimage base2 seed2 programId2 ->
  base1 = base2 /\ seed1 = seed2 /\ programId1 = programId2.
Proof.
  intros Hb1 Hb2 Hp1 Hp2 Heq. unfold PublicKeys.seed_preimage in Heq.
  apply app_inj_length in Heq;
    [|unfold PublicKeys.toBuffer; now rewrite !be_bytes_length].
  destruct Heq as [Hbase Hrest].
  apply app_inj_tail_length in Hrest;
    [|unfold PublicKeys.toBuffer; now rewrite !be_bytes_length].
  destruct Hrest as [Hseed Hprogram].
  split; [now apply toBuffer_inj|].
  split; [now apply of_string_inj | now apply toBuffer_inj].
Qed.

(** X16.  The bytes hashed by the derivation determine its three inputs:
    two derivations on valid keys that differ in the base key, in the seed
    or in the program hash different bytes. *)
Theorem seed_preimage_inj (base1 base2 programId1 programId2 : PublicKey)
        (seed1 seed2 : string) :
  PublicKeys.valid base1 -> PublicKeys.valid base2 ->
  PublicKeys.valid programId1 -> PublicKeys.valid programId2 ->
  (base1, seed1, programId1) <> (base2, seed2, programId2) ->
  PublicKeys.seed_preimage base1 seed1 programId1
  <> PublicKeys.seed_preimage base2 seed2 programId2.
Proof.
  intros Hb1 Hb2 Hp1 Hp2 Hneq Heq. apply Hneq.
  destruct (seed_preimage_determines _ _ _ _ _ _ Hb1 Hb2 Hp1 Hp2 Heq) as (-> & -> & ->).
  reflexivity.
Qed.

(** The sample payer and another one, for the same agreement and program. *)
Lemma seed_preimage_inj_witness :
  PublicKeys.seed_preimage (publicKey demo_payer) (AGREEMENT_SEED ownerKey tenantKey)
    (publicKey demo_program)
  <> PublicKeys.seed_preimage (mkPublicKey 8) (AGREEMENT_SEED ownerKey tenantKey)
       (publicKey demo_program).
Proof.
  apply (seed_preimage_inj (publicKey demo_payer) (mkPublicKey 8)
           (publicKey demo_program) (publicKey demo_program)).
  - vm_compute. split; [discriminate | reflexivity].
  - vm_compute. split; [discriminate | reflexivity].
  - vm_compute. split; [discriminate | reflexivity].
  - vm_compute. split; [discriminate | reflexivity].
  - intros H. apply (f_equal (fun t => _bn (fst (fst t)) =? 8)) in H.
    vm_compute in H. discriminate H.
Defined.
